(** * Pipeline assembly in the ACTS Python examples

    A shallow embedding of the pipeline-assembling helpers of
    [Examples/Python/python/acts/examples/reconstruction.py] and of the run
    scripts [CI/physmon/physmon.py] and [Examples/Python/tests/test_examples.py].

    The helpers receive a [Sequencer] object and mutate it in place by
    [s.addAlgorithm] / [s.addWriter]; they also touch the file system
    ([Path.exists], [Path.mkdir]) and the logger.  They are embedded as
    computations in a state-and-exception monad over a [World]; the state
    survives an exception, as the mutated Python objects do. *)

From Stdlib Require Import String List ZArith QArith Bool Lia.
Import ListNotations.
Local Open Scope string_scope.
Local Open Scope list_scope.

(** ** Values handed to the external collaborators *)

(** A file-system path, as its components ([Path(a) / b] appends one). *)
Definition Path := list string.

(** [acts.logging.Level], with the integer values of the binding. *)
Inductive Level := VERBOSE | DEBUG | INFO | WARNING | ERROR | FATAL | MAX.

Definition level_value (l : Level) : Z :=
  match l with
  | VERBOSE => 0 | DEBUG => 1 | INFO => 2 | WARNING => 3
  | ERROR => 4 | FATAL => 5 | MAX => 6
  end%Z.

(** [acts.logging.Level(max(a.value, b.value))] *)
Definition level_max (a b : Level) : Level :=
  if (level_value a <? level_value b)%Z then b else a.

(** Configuration values.  Numbers are carried through unchanged by the
    helpers; they are modelled as rationals. *)
#[warnings="-register-all"]
Inductive Value :=
| VNone
| VBool (b : bool)
| VNum (q : Q)
| VStr (s : string)
| VPath (p : Path)
| VLevel (l : Level)
| VSeq (vs : list Value)
| VRef (name : string)
    (* an object supplied by the caller: tracking geometry, field, ... *)
| VCall (fn : string) (args : list Value) (kwargs : list (string * Value))
    (* the object returned by an external constructor or factory *)
| VAttr (obj : Value) (field : string).
    (* an attribute of an external object that Python did not set: the
       default compiled into the binding *)

Definition KWArgs := list (string * Value).

Fixpoint assoc {A : Type} (k : string) (l : list (string * A)) : option A :=
  match l with
  | [] => None
  | (k', v) :: r => if String.eqb k k' then Some v else assoc k r
  end.

(** [obj.field] for an external configuration object. *)
Definition attr (obj : Value) (field : string) : Value :=
  match obj with
  | VCall _ _ kw =>
      match assoc field kw with Some v => v | None => VAttr obj field end
  | _ => VAttr obj field
  end.

Definition opt_num (o : option Q) : Value :=
  match o with Some q => VNum q | None => VNone end.

(** A [(min, max)] tuple of a named-tuple argument. *)
Definition Range := (option Q * option Q)%type.
Definition no_range : Range := (None, None).

(** ** Stages and the sequencer *)

(** An algorithm or writer object as constructed from Python.  Keyword
    arguments naming white-board keys are kept in [inputs] and [outputs]
    under the name of their configuration field (a list-valued field
    contributes one entry per key); [level] is the [level=] argument; every
    other keyword argument is in [params]. *)
Record Component := mkComponent {
  cls : string;
  level : Level;
  inputs : list (string * string);
  outputs : list (string * string);
  params : KWArgs
}.

Inductive StageKind := Reader | Algorithm | Writer.

Record Stage := mkStage { kind : StageKind; comp : Component }.

(** [alg.config.<field>] for a white-board key. *)
Definition cfg_in (c : Component) (field : string) : string :=
  match assoc field (inputs c) with Some k => k | None => "" end.
Definition cfg_out (c : Component) (field : string) : string :=
  match assoc field (outputs c) with Some k => k | None => "" end.

Record SequencerConfig := mkSequencerConfig {
  events : option Z;
  skip : Z;
  numThreads : Z;
  logLevel : Level
}.

Record Sequencer := mkSequencer {
  config : SequencerConfig;
  stages : list Stage
}.

(** An empty key means that the optional input is not used
    ([inputSeeds = ""], [outputTime = ""]). *)
Definition nonempty (k : string) : bool := negb (String.eqb k "").

Definition requiredInputs (st : Stage) : list string :=
  filter nonempty (map snd (inputs (comp st))).
Definition producedOutputs (st : Stage) : list string :=
  filter nonempty (map snd (outputs (comp st))).

Definition produces (key : string) (st : Stage) : bool :=
  existsb (String.eqb key) (producedOutputs st).

Definition is_algorithm (st : Stage) : bool :=
  match kind st with Algorithm => true | _ => false end.
Definition is_writer (st : Stage) : bool :=
  match kind st with Writer => true | _ => false end.

Definition stage_names (l : list Stage) : list string :=
  map (fun st => cls (comp st)) l.

(** ** Exceptions, world and monad *)

Inductive Exc :=
| NameError (name : string)
| UnboundLocalError (name : string)
| RuntimeError (msg : string)
| ThresholdFailure (l : Level)
| FileNotFoundError (p : Path)
| NotADirectoryError (p : Path)
| ExternalError (what : string).

Record LogRecord := mkLog { logger : string; severity : Level; message : string }.

Record World := mkWorld {
  seq : Sequencer;
  dirs : list Path;          (* existing directories *)
  files : list Path;         (* existing regular files *)
  logged : list LogRecord;   (* messages handed to the loggers, oldest first *)
  dumped : nat               (* number of [dump_args_calls] print-outs *)
}.

(** The collaborators that are not part of the embedded sources. *)
Record Externals := mkExternals {
  (* does a message of this level make the logger raise
     (ACTS_LOG_FAILURE_THRESHOLD)? *)
  logRaises : Level -> bool;
  (* [acts.examples.defaultKWArgs] applied to keyword arguments *)
  defaultKWArgs : KWArgs -> KWArgs;
  (* [acts.examples.readJsonGeometryList(path)] *)
  readJsonGeometryList : Path -> Exc + Value
}.

Definition M (A : Type) : Type := World -> (Exc + A) * World.

Definition ret {A : Type} (a : A) : M A := fun w => (inr a, w).

Definition bind {A B : Type} (m : M A) (f : A -> M B) : M B :=
  fun w =>
    match m w with
    | (inl e, w') => (inl e, w')
    | (inr a, w') => f a w'
    end.

Definition raise {A : Type} (e : Exc) : M A := fun w => (inl e, w).

Declare Scope py_scope.
Delimit Scope py_scope with py.
Notation "x <- m ;; k" := (bind m (fun x => k))
  (at level 61, m at next level, right associativity) : py_scope.
Notation "m ;; k" := (bind m (fun _ => k))
  (at level 61, right associativity) : py_scope.
Local Open Scope py_scope.

Definition lift_result {A : Type} (r : Exc + A) : M A :=
  match r with inl e => raise e | inr a => ret a end.

Definition get_seq : M Sequencer := fun w => (inr (seq w), w).

Definition set_stages (l : list Stage) (w : World) : World :=
  mkWorld (mkSequencer (config (seq w)) l) (dirs w) (files w) (logged w) (dumped w).

(** [s.addAlgorithm(alg)] and [s.addWriter(wr)] append to the sequencer. *)
Definition addAlgorithm (c : Component) : M unit :=
  fun w => (inr tt, set_stages (stages (seq w) ++ [mkStage Algorithm c]) w).
Definition addWriter (c : Component) : M unit :=
  fun w => (inr tt, set_stages (stages (seq w) ++ [mkStage Writer c]) w).

(** [acts.examples.dump_args_calls(locals())] only prints. *)
Definition dump_args_calls : M unit :=
  fun w => (inr tt, mkWorld (seq w) (dirs w) (files w) (logged w) (S (dumped w))).

(** [acts.logging.getLogger(name).<level>(msg)]: the message is emitted, and
    the logger raises when the level reaches the failure threshold. *)
Definition log (ext : Externals) (name : string) (l : Level) (msg : string) : M unit :=
  fun w =>
    let w' := mkWorld (seq w) (dirs w) (files w)
                      (logged w ++ [mkLog name l msg]) (dumped w) in
    if logRaises ext l then (inl (ThresholdFailure l), w') else (inr tt, w').

(** A local variable that is assigned on some paths only. *)
Definition load_local {A : Type} (name : string) (v : option A) : M A :=
  match v with Some a => ret a | None => raise (UnboundLocalError name) end.

(** The names bound at module level in reconstruction.py. *)
Definition module_globals : list string :=
  [ "Path"; "Optional"; "Union"; "Enum"; "namedtuple"; "warnings"; "acts"; "u";
    "SeedingAlgorithm"; "TruthSeedRanges"; "ParticleSmearingSigmas";
    "SeedfinderConfigArg"; "TrackParamsEstimationConfig"; "addSeeding";
    "addKalmanTracks"; "addTruthTrackingGsf"; "CKFPerformanceConfig";
    "addCKFTracks"; "addExaTrkx"; "VertexFinder"; "addVertexFitting" ].

(** A name that is not local to the function is looked up in the module. *)
Definition load_global (name : string) : M Value :=
  if existsb (String.eqb name) module_globals
  then ret (VRef name) else raise (NameError name).

Definition as_key (v : Value) : string :=
  match v with VStr s => s | _ => "" end.

(** ** File system *)

Fixpoint mem_path (p : Path) (l : list Path) : bool :=
  match l with
  | [] => false
  | q :: r => if list_eq_dec string_dec p q then true else mem_path p r
  end.

(** The empty path is the root of the tree the paths are taken from. *)
Definition is_dir (w : World) (p : Path) : bool :=
  match p with [] => true | _ => mem_path p (dirs w) end.

Definition path_exists (w : World) (p : Path) : bool :=
  is_dir w p || mem_path p (files w).

(** [Path.mkdir()] without [parents=True], called on a path that does not
    exist. *)
Definition mkdir (p : Path) : M unit :=
  fun w =>
    let parent := removelast p in
    if is_dir w parent
    then (inr tt, mkWorld (seq w) (dirs w ++ [p]) (files w) (logged w) (dumped w))
    else if mem_path parent (files w)
         then (inl (NotADirectoryError p), w)
         else (inl (FileNotFoundError p), w).

(** [if not d.exists(): d.mkdir()] *)
Definition ensure_dir (p : Path) : M unit :=
  fun w => if path_exists w p then (inr tt, w) else mkdir p w.

(** ** addKalmanTracks *)

(** [SurfaceSortingAlgorithm(...)] of lines 399-405. *)
Definition surfaceSortingAlgorithm (outputSimHits digiAlg : Value) : Component :=
  mkComponent "SurfaceSortingAlgorithm" INFO
    [("inputProtoTracks", "prototracks");
     ("inputSimulatedHits", as_key outputSimHits);
     ("inputMeasurementSimHitsMap",
      as_key (attr (attr digiAlg "config") "outputMeasurementSimHitsMap"))]
    [("outputProtoTracks", "sortedprototracks")]
    [].

(** [TrackFittingAlgorithm(...)] of lines 411-434, with [kalmanOptions]. *)
Definition kalmanFittingAlgorithm (trackingGeometry field : Value)
    (directNavigation : bool) (reverseFilteringMomThreshold : Q)
    (inputProtoTracks : string) : Component :=
  let kalmanOptions : KWArgs :=
    [("multipleScattering", VBool true);
     ("energyLoss", VBool true);
     ("reverseFilteringMomThreshold", VNum reverseFilteringMomThreshold);
     ("freeToBoundCorrection", VCall "FreeToBoundCorrection" [VBool false] [])] in
  mkComponent "TrackFittingAlgorithm" INFO
    [("inputMeasurements", "measurements");
     ("inputSourceLinks", "sourcelinks");
     ("inputProtoTracks", inputProtoTracks);
     ("inputInitialTrackParameters", "estimatedparameters")]
    [("outputTrajectories", "trajectories")]
    [("directNavigation", VBool directNavigation);
     ("pickTrack", VNum (-1));
     ("trackingGeometry", trackingGeometry);
     ("dFit", VCall "TrackFittingAlgorithm.makeKalmanFitterFunction"
                [field] kalmanOptions);
     ("fit", VCall "TrackFittingAlgorithm.makeKalmanFitterFunction"
               [trackingGeometry; field] kalmanOptions)].

Definition addKalmanTracks (trackingGeometry field : Value)
    (directNavigation : bool) (reverseFilteringMomThreshold : Q) : M unit :=
  let truthTrkFndAlg :=
    mkComponent "TruthTrackFinder" INFO
      [("inputParticles", "truth_seeds_selected");
       ("inputMeasurementParticlesMap", "measurement_particles_map")]
      [("outputProtoTracks", "prototracks")]
      [] in
  addAlgorithm truthTrkFndAlg ;;
  inputProtoTracks <-
    (if directNavigation then
       outputSimHits <- load_global "outputSimHits" ;;
       digiAlg <- load_global "digiAlg" ;;
       let srfSortAlg := surfaceSortingAlgorithm outputSimHits digiAlg in
       addAlgorithm srfSortAlg ;;
       ret (cfg_out srfSortAlg "outputProtoTracks")
     else ret "prototracks") ;;
  let fitAlg :=
    kalmanFittingAlgorithm trackingGeometry field directNavigation
      reverseFilteringMomThreshold inputProtoTracks in
  addAlgorithm fitAlg.

(** ** Named tuples and enumerations of reconstruction.py *)

Inductive SeedingAlgorithm := Default | TruthSmeared | TruthEstimated | Orthogonal.

(** Python does not check the annotation of an argument: the caller may hand
    in a member of the enumeration or any other object ([repr] is how the
    object prints).  Such an object compares unequal to every member. *)
Inductive PyArg (E : Type) :=
| Member (e : E)
| Foreign (repr : string).
Arguments Member {E} e.
Arguments Foreign {E} repr.

Module TruthSeedRanges.
Record t := mk {
  rho : Range; z : Range; phi : Range; eta : Range;
  absEta : Range; pt : Range; nHits : Range
}.
Definition default : t :=
  mk no_range no_range no_range no_range no_range no_range no_range.
End TruthSeedRanges.

Module ParticleSmearingSigmas.
Record t := mk {
  d0 : option Q; d0PtA : option Q; d0PtB : option Q;
  z0 : option Q; z0PtA : option Q; z0PtB : option Q;
  t0 : option Q; phi : option Q; theta : option Q; pRel : option Q
}.
Definition default : t := mk None None None None None None None None None None.
End ParticleSmearingSigmas.

Module SeedfinderConfigArg.
Record t := mk {
  maxSeedsPerSpM : option Q;
  cotThetaMax : option Q;
  sigmaScattering : option Q;
  radLengthPerSeed : option Q;
  minPt : option Q;
  bFieldInZ : option Q;
  impactMax : option Q;
  deltaR : Range;
  collisionRegion : Range;
  r : Range;
  z : Range;
  beamPos : option (option Q * option Q)
}.
Definition default : t :=
  mk None None None None None None None
     no_range no_range no_range no_range (Some (None, None)).
End SeedfinderConfigArg.

Module TrackParamsEstimationConfig.
Record t := mk { deltaR : Range }.
Definition default : t := mk no_range.
End TrackParamsEstimationConfig.

Module CKFPerformanceConfig.
Record t := mk {
  truthMatchProbMin : option Q; nMeasurementsMin : option Q; ptMin : option Q
}.
Definition default : t := mk None None None.
End CKFPerformanceConfig.

Definition SeedingAlgorithm_name (v : SeedingAlgorithm) : string :=
  match v with
  | Default => "SeedingAlgorithm.Default"
  | TruthSmeared => "SeedingAlgorithm.TruthSmeared"
  | TruthEstimated => "SeedingAlgorithm.TruthEstimated"
  | Orthogonal => "SeedingAlgorithm.Orthogonal"
  end.

(** How the argument prints under the [%s] of the log message. *)
Definition py_repr (v : PyArg SeedingAlgorithm) : string :=
  match v with Member e => SeedingAlgorithm_name e | Foreign repr => repr end.

(** [x or 0.0] *)
Definition or_zero (x : option Q) : Q :=
  match x with
  | Some q => if Qeq_bool q 0 then 0%Q else q
  | None => 0%Q
  end.

(** The [beamPos=] keyword of the seed finder configurations. *)
Definition beamPos_value (b : option (option Q * option Q)) : Value :=
  match b with
  | None => VNone
  | Some (None, None) => VNone
  | Some (x, y) => VCall "acts.Vector2" [VNum (or_zero x); VNum (or_zero y)] []
  end.

Definition opt_list (o : option (list Q)) : Value :=
  match o with Some l => VSeq (map VNum l) | None => VNone end.

(** [str(p)] for an optional path: [str(None)] is the text "None". *)
Definition py_str (p : option Path) : Path :=
  match p with Some q => q | None => ["None"] end.

(** The nested helper [customLogLevel] of addSeeding and addVertexFitting;
    [s] is the sequencer of the enclosing call. *)
Definition customLogLevel (s : Sequencer) (logLevel' : option Level)
    (custom : Level) : Level :=
  match logLevel' with
  | None => logLevel (config s)
  | Some l => level_max custom l
  end.

(** ** addSeeding *)

Module Seeding.
Record Args := mk {
  trackingGeometry : Value;
  field : Value;
  geoSelectionConfigFile : option Path;
  seedingAlgorithm : PyArg SeedingAlgorithm;
  truthSeedRanges : option TruthSeedRanges.t;
  particleSmearingSigmas : ParticleSmearingSigmas.t;
  initialVarInflation : option (list Q);
  seedfinderConfigArg : SeedfinderConfigArg.t;
  trackParamsEstimationConfig : TrackParamsEstimationConfig.t;
  inputParticles : string;
  outputDirRoot : option Path;
  logLevel : option Level;
  rnd : option Value
}.

(** The defaults of the signature, for the two positional arguments given. *)
Definition default (trackingGeometry field : Value) : Args :=
  mk trackingGeometry field None (Member Default)
     (Some TruthSeedRanges.default) ParticleSmearingSigmas.default None
     SeedfinderConfigArg.default TrackParamsEstimationConfig.default
     "particles_initial" None None None.
End Seeding.

Section Reconstruction.

Context (ext : Externals).

(** The keyword arguments shared by [acts.SeedfinderConfig] and
    [acts.SeedFinderOrthogonalConfig], in the order of the Default branch. *)
Definition seedfinder_kwargs_default (c : SeedfinderConfigArg.t) : KWArgs :=
  [ ("rMin", opt_num (fst (SeedfinderConfigArg.r c)));
    ("rMax", opt_num (snd (SeedfinderConfigArg.r c)));
    ("deltaRMin", opt_num (fst (SeedfinderConfigArg.deltaR c)));
    ("deltaRMax", opt_num (snd (SeedfinderConfigArg.deltaR c)));
    ("deltaRMinTopSP", opt_num (fst (SeedfinderConfigArg.deltaR c)));
    ("deltaRMinBottomSP", opt_num (fst (SeedfinderConfigArg.deltaR c)));
    ("deltaRMaxTopSP", opt_num (snd (SeedfinderConfigArg.deltaR c)));
    ("deltaRMaxBottomSP", opt_num (snd (SeedfinderConfigArg.deltaR c)));
    ("collisionRegionMin", opt_num (fst (SeedfinderConfigArg.collisionRegion c)));
    ("collisionRegionMax", opt_num (snd (SeedfinderConfigArg.collisionRegion c)));
    ("zMin", opt_num (fst (SeedfinderConfigArg.z c)));
    ("zMax", opt_num (snd (SeedfinderConfigArg.z c)));
    ("maxSeedsPerSpM", opt_num (SeedfinderConfigArg.maxSeedsPerSpM c));
    ("cotThetaMax", opt_num (SeedfinderConfigArg.cotThetaMax c));
    ("sigmaScattering", opt_num (SeedfinderConfigArg.sigmaScattering c));
    ("radLengthPerSeed", opt_num (SeedfinderConfigArg.radLengthPerSeed c));
    ("minPt", opt_num (SeedfinderConfigArg.minPt c));
    ("bFieldInZ", opt_num (SeedfinderConfigArg.bFieldInZ c));
    ("impactMax", opt_num (SeedfinderConfigArg.impactMax c));
    ("beamPos", beamPos_value (SeedfinderConfigArg.beamPos c)) ].

Definition seedfinder_kwargs_orthogonal (c : SeedfinderConfigArg.t) : KWArgs :=
  [ ("rMin", opt_num (fst (SeedfinderConfigArg.r c)));
    ("rMax", opt_num (snd (SeedfinderConfigArg.r c)));
    ("deltaRMin", opt_num (fst (SeedfinderConfigArg.deltaR c)));
    ("deltaRMax", opt_num (snd (SeedfinderConfigArg.deltaR c)));
    ("collisionRegionMin", opt_num (fst (SeedfinderConfigArg.collisionRegion c)));
    ("collisionRegionMax", opt_num (snd (SeedfinderConfigArg.collisionRegion c)));
    ("zMin", opt_num (fst (SeedfinderConfigArg.z c)));
    ("zMax", opt_num (snd (SeedfinderConfigArg.z c)));
    ("maxSeedsPerSpM", opt_num (SeedfinderConfigArg.maxSeedsPerSpM c));
    ("cotThetaMax", opt_num (SeedfinderConfigArg.cotThetaMax c));
    ("sigmaScattering", opt_num (SeedfinderConfigArg.sigmaScattering c));
    ("radLengthPerSeed", opt_num (SeedfinderConfigArg.radLengthPerSeed c));
    ("minPt", opt_num (SeedfinderConfigArg.minPt c));
    ("bFieldInZ", opt_num (SeedfinderConfigArg.bFieldInZ c));
    ("impactMax", opt_num (SeedfinderConfigArg.impactMax c));
    ("beamPos", beamPos_value (SeedfinderConfigArg.beamPos c)) ].

(** [TruthSeedSelector(...)] of lines 129-150. *)
Definition truthSeedSelector (lvl : Level) (r : TruthSeedRanges.t)
    (inputParticles : string) : Component :=
  mkComponent "TruthSeedSelector" lvl
    [("inputParticles", inputParticles);
     ("inputMeasurementParticlesMap", "measurement_particles_map")]
    [("outputParticles", "truth_seeds_selected")]
    (defaultKWArgs ext
       [ ("ptMin", opt_num (fst (TruthSeedRanges.pt r)));
         ("ptMax", opt_num (snd (TruthSeedRanges.pt r)));
         ("etaMin", opt_num (fst (TruthSeedRanges.eta r)));
         ("etaMax", opt_num (snd (TruthSeedRanges.eta r)));
         ("nHitsMin", opt_num (fst (TruthSeedRanges.nHits r)));
         ("nHitsMax", opt_num (snd (TruthSeedRanges.nHits r)));
         ("rhoMin", opt_num (fst (TruthSeedRanges.rho r)));
         ("rhoMax", opt_num (snd (TruthSeedRanges.rho r)));
         ("zMin", opt_num (fst (TruthSeedRanges.z r)));
         ("zMax", opt_num (snd (TruthSeedRanges.z r)));
         ("phiMin", opt_num (fst (TruthSeedRanges.phi r)));
         ("phiMax", opt_num (snd (TruthSeedRanges.phi r)));
         ("absEtaMin", opt_num (fst (TruthSeedRanges.absEta r)));
         ("absEtaMax", opt_num (snd (TruthSeedRanges.absEta r))) ]).

(** [ParticleSmearing(...)] of lines 162-181. *)
Definition particleSmearing (lvl : Level) (selectedParticles : string)
    (rnd : Value) (g : ParticleSmearingSigmas.t)
    (initialVarInflation : option (list Q)) : Component :=
  mkComponent "ParticleSmearing" lvl
    [("inputParticles", selectedParticles)]
    [("outputTrackParameters", "estimatedparameters")]
    (("randomNumbers", rnd) ::
     defaultKWArgs ext
       [ ("sigmaD0", opt_num (ParticleSmearingSigmas.d0 g));
         ("sigmaD0PtA", opt_num (ParticleSmearingSigmas.d0PtA g));
         ("sigmaD0PtB", opt_num (ParticleSmearingSigmas.d0PtB g));
         ("sigmaZ0", opt_num (ParticleSmearingSigmas.z0 g));
         ("sigmaZ0PtA", opt_num (ParticleSmearingSigmas.z0PtA g));
         ("sigmaZ0PtB", opt_num (ParticleSmearingSigmas.z0PtB g));
         ("sigmaT0", opt_num (ParticleSmearingSigmas.t0 g));
         ("sigmaPhi", opt_num (ParticleSmearingSigmas.phi g));
         ("sigmaTheta", opt_num (ParticleSmearingSigmas.theta g));
         ("sigmaPRel", opt_num (ParticleSmearingSigmas.pRel g));
         ("initialVarInflation", opt_list initialVarInflation) ]).

(** The three performance writers of lines 346-378. *)
Definition trackFinderPerformanceWriter (lvl : Level) (d : Path)
    (inputProtoTracks selectedParticles measMap : string) : Component :=
  mkComponent "TrackFinderPerformanceWriter" lvl
    [("inputProtoTracks", inputProtoTracks);
     ("inputParticles", selectedParticles);
     ("inputMeasurementParticlesMap", measMap)]
    []
    [("filePath", VPath (d ++ ["performance_seeding_trees.root"]))].

Definition seedingPerformanceWriter (lvl : Level) (d : Path)
    (inputProtoTracks selectedParticles measMap : string) : Component :=
  mkComponent "SeedingPerformanceWriter" lvl
    [("inputProtoTracks", inputProtoTracks);
     ("inputParticles", selectedParticles);
     ("inputMeasurementParticlesMap", measMap)]
    []
    [("filePath", VPath (d ++ ["performance_seeding_hists.root"]))].

Definition rootTrackParameterWriter (lvl : Level) (d : Path)
    (parEstimateAlg : Component) (inputParticles measMap : string) : Component :=
  mkComponent "RootTrackParameterWriter" lvl
    [("inputTrackParameters", cfg_out parEstimateAlg "outputTrackParameters");
     ("inputProtoTracks", cfg_out parEstimateAlg "outputProtoTracks");
     ("inputParticles", inputParticles);
     ("inputSimHits", "simhits");
     ("inputMeasurementParticlesMap", measMap);
     ("inputMeasurementSimHitsMap", "measurement_simhits_map")]
    []
    [("filePath", VPath (d ++ ["estimatedparams.root"]));
     ("treeName", VStr "estimatedparams")].

(** [SpacePointMaker(...)] of lines 185-194. *)
Definition spacePointMaker (lvl : Level) (trackingGeometry geometrySelection : Value)
  : Component :=
  mkComponent "SpacePointMaker" lvl
    [("inputSourceLinks", "sourcelinks");
     ("inputMeasurements", "measurements")]
    [("outputSpacePoints", "spacepoints")]
    [("trackingGeometry", trackingGeometry);
     ("geometrySelection", geometrySelection)].

(** [TruthTrackFinder(...)] of lines 201-206. *)
Definition truthTrackFinder (lvl : Level) (selectedParticles measMap : string)
  : Component :=
  mkComponent "TruthTrackFinder" lvl
    [("inputParticles", selectedParticles);
     ("inputMeasurementParticlesMap", measMap)]
    [("outputProtoTracks", "prototracks")]
    [].

(** [SeedingAlgorithm(...)] of lines 213-269, with its three configuration
    objects. *)
Definition seedingAlgorithm (lvl : Level) (spAlg : Component)
    (c : SeedfinderConfigArg.t) : Component :=
  let seedFinderConfig :=
    VCall "acts.SeedfinderConfig" []
      (defaultKWArgs ext (seedfinder_kwargs_default c)) in
  let seedFilterConfig :=
    VCall "acts.SeedFilterConfig" []
      [("maxSeedsPerSpM", attr seedFinderConfig "maxSeedsPerSpM");
       ("deltaRMin", attr seedFinderConfig "deltaRMin")] in
  let gridConfig :=
    VCall "acts.SpacePointGridConfig" []
      [("bFieldInZ", attr seedFinderConfig "bFieldInZ");
       ("minPt", attr seedFinderConfig "minPt");
       ("rMax", attr seedFinderConfig "rMax");
       ("zMax", attr seedFinderConfig "zMax");
       ("zMin", attr seedFinderConfig "zMin");
       ("deltaRMax", attr seedFinderConfig "deltaRMax");
       ("cotThetaMax", attr seedFinderConfig "cotThetaMax")] in
  mkComponent "SeedingAlgorithm" lvl
    [("inputSpacePoints", cfg_out spAlg "outputSpacePoints")]
    [("outputSeeds", "seeds"); ("outputProtoTracks", "prototracks")]
    [("gridConfig", gridConfig);
     ("seedFilterConfig", seedFilterConfig);
     ("seedFinderConfig", seedFinderConfig)].

(** [SeedingOrthogonalAlgorithm(...)] of lines 276-317. *)
Definition seedingOrthogonalAlgorithm (lvl : Level) (spAlg : Component)
    (c : SeedfinderConfigArg.t) : Component :=
  let seedFinderConfig :=
    VCall "acts.SeedFinderOrthogonalConfig" []
      (defaultKWArgs ext (seedfinder_kwargs_orthogonal c)) in
  let seedFilterConfig :=
    VCall "acts.SeedFilterConfig" []
      [("maxSeedsPerSpM", attr seedFinderConfig "maxSeedsPerSpM");
       ("deltaRMin", attr seedFinderConfig "deltaRMin")] in
  mkComponent "SeedingOrthogonalAlgorithm" lvl
    [("inputSpacePoints", cfg_out spAlg "outputSpacePoints")]
    [("outputSeeds", "seeds"); ("outputProtoTracks", "prototracks")]
    [("seedFilterConfig", seedFilterConfig);
     ("seedFinderConfig", seedFinderConfig)].

(** [TrackParamsEstimationAlgorithm(...)] of lines 324-339. *)
Definition trackParamsEstimationAlgorithm (lvl : Level)
    (inputSeeds inputProtoTracks : string) (spAlg : Component)
    (trackingGeometry field : Value) (initialVarInflation : option (list Q))
    (c : TrackParamsEstimationConfig.t) : Component :=
  mkComponent "TrackParamsEstimationAlgorithm" lvl
    [("inputSeeds", inputSeeds);
     ("inputProtoTracks", inputProtoTracks);
     ("inputSpacePoints", cfg_out spAlg "outputSpacePoints");
     ("inputSourceLinks", cfg_in spAlg "inputSourceLinks")]
    [("outputTrackParameters", "estimatedparameters");
     ("outputProtoTracks", "prototracks_estimated")]
    (("trackingGeometry", trackingGeometry) ::
     ("magneticField", field) ::
     defaultKWArgs ext
       [ ("initialVarInflation", opt_list initialVarInflation);
         ("deltaRMin", opt_num (fst (TrackParamsEstimationConfig.deltaR c)));
         ("deltaRMax", opt_num (snd (TrackParamsEstimationConfig.deltaR c))) ]).

Definition addSeeding (a : Seeding.Args) : M unit :=
  s <- get_seq ;;
  let customLogLevel := customLogLevel s (Seeding.logLevel a) in
  (if (level_value (customLogLevel INFO) <=? level_value DEBUG)%Z
   then dump_args_calls else ret tt) ;;
  let logger := log ext "addSeeding" in
  sel <-
    match Seeding.truthSeedRanges a with
    | Some truthSeedRanges =>
        let selAlg :=
          truthSeedSelector (customLogLevel INFO) truthSeedRanges
            (Seeding.inputParticles a) in
        addAlgorithm selAlg ;;
        ret (Some selAlg, cfg_out selAlg "outputParticles")
    | None => ret (None, Seeding.inputParticles a)
    end ;;
  let selAlg : option Component := fst sel in
  let selectedParticles : string := snd sel in
  match Seeding.seedingAlgorithm a with
  | Member TruthSmeared =>
      let rnd :=
        match Seeding.rnd a with
        | Some r => r
        | None => VCall "RandomNumbers" [] [("seed", VNum 42)]
        end in
      logger INFO "Using smeared truth particles for seeding" ;;
      let ptclSmear :=
        particleSmearing (customLogLevel INFO) selectedParticles rnd
          (Seeding.particleSmearingSigmas a) (Seeding.initialVarInflation a) in
      addAlgorithm ptclSmear
  | other =>
      geometrySelection <-
        lift_result
          (readJsonGeometryList ext (py_str (Seeding.geoSelectionConfigFile a))) ;;
      let spAlg :=
        spacePointMaker (customLogLevel INFO) (Seeding.trackingGeometry a)
          geometrySelection in
      addAlgorithm spAlg ;;
      found <-
        match other with
        | Member TruthEstimated =>
            logger INFO "Using truth track finding from space points for seeding" ;;
            selAlg' <- load_local "selAlg" selAlg ;;
            let truthTrackFinder :=
              truthTrackFinder (customLogLevel INFO) selectedParticles
                (cfg_in selAlg' "inputMeasurementParticlesMap") in
            addAlgorithm truthTrackFinder ;;
            ret (Some (cfg_out truthTrackFinder "outputProtoTracks"), Some "")
        | Member Default =>
            logger INFO "Using default seeding" ;;
            let seedingAlg :=
              seedingAlgorithm (customLogLevel VERBOSE) spAlg
                (Seeding.seedfinderConfigArg a) in
            addAlgorithm seedingAlg ;;
            ret (Some (cfg_out seedingAlg "outputProtoTracks"),
                 Some (cfg_out seedingAlg "outputSeeds"))
        | Member Orthogonal =>
            logger INFO "Using orthogonal seeding" ;;
            let seedingAlg :=
              seedingOrthogonalAlgorithm (customLogLevel VERBOSE) spAlg
                (Seeding.seedfinderConfigArg a) in
            addAlgorithm seedingAlg ;;
            ret (Some (cfg_out seedingAlg "outputProtoTracks"),
                 Some (cfg_out seedingAlg "outputSeeds"))
        | _ =>
            logger FATAL
              (String.append "unknown seedingAlgorithm " (py_repr other)) ;;
            ret (None, None)
        end ;;
      inputSeeds <- load_local "inputSeeds" (snd found) ;;
      inputProtoTracks <- load_local "inputProtoTracks" (fst found) ;;
      let parEstimateAlg :=
        trackParamsEstimationAlgorithm (customLogLevel VERBOSE)
          inputSeeds inputProtoTracks spAlg
          (Seeding.trackingGeometry a) (Seeding.field a)
          (Seeding.initialVarInflation a)
          (Seeding.trackParamsEstimationConfig a) in
      addAlgorithm parEstimateAlg ;;
      match Seeding.outputDirRoot a with
      | Some outputDirRoot =>
          ensure_dir outputDirRoot ;;
          selAlg' <- load_local "selAlg" selAlg ;;
          let measMap := cfg_in selAlg' "inputMeasurementParticlesMap" in
          addWriter
            (trackFinderPerformanceWriter (customLogLevel INFO) outputDirRoot
               inputProtoTracks selectedParticles measMap) ;;
          addWriter
            (seedingPerformanceWriter (customLogLevel DEBUG) outputDirRoot
               inputProtoTracks selectedParticles measMap) ;;
          addWriter
            (rootTrackParameterWriter (customLogLevel VERBOSE) outputDirRoot
               parEstimateAlg (Seeding.inputParticles a) measMap)
      | None => ret tt
      end
  end.

End Reconstruction.

(** ** addCKFTracks *)

Module CKF.
Record Args := mk {
  trackingGeometry : Value;
  field : Value;
  CKFPerformanceConfigArg : CKFPerformanceConfig.t;
  outputDirCsv : option Path;
  outputDirRoot : option Path;
  selectedParticles : string
}.

Definition default (trackingGeometry field : Value) : Args :=
  mk trackingGeometry field CKFPerformanceConfig.default None None
     "truth_seeds_selected".
End CKF.

Section TrackFinding.

Context (ext : Externals).

(** [TrackFindingAlgorithm(...)] of lines 515-528. *)
Definition trackFindingAlgorithm (lvl : Level) (trackingGeometry field : Value)
  : Component :=
  mkComponent "TrackFindingAlgorithm" lvl
    [("inputMeasurements", "measurements");
     ("inputSourceLinks", "sourcelinks");
     ("inputInitialTrackParameters", "estimatedparameters")]
    [("outputTrajectories", "trajectories");
     ("outputTrackParameters", "fittedTrackParameters")]
    [("measurementSelectorCfg",
      VCall "acts.MeasurementSelector.Config"
        [VSeq [VSeq [VCall "acts.GeometryIdentifier" [] [];
                     VSeq [VSeq []; VSeq [VNum 15]; VSeq [VNum 10]]]]] []);
     ("findTracks",
      VCall "TrackFindingAlgorithm.makeTrackFinderFunction"
        [trackingGeometry; field] [])].

Definition rootTrajectoryStatesWriter (lvl : Level) (d : Path)
    (trackFinder : Component) : Component :=
  mkComponent "RootTrajectoryStatesWriter" lvl
    [("inputTrajectories", cfg_out trackFinder "outputTrajectories");
     ("inputParticles", "particles_selected");
     ("inputSimHits", "simhits");
     ("inputMeasurementParticlesMap", "measurement_particles_map");
     ("inputMeasurementSimHitsMap", "measurement_simhits_map")]
    []
    [("filePath", VPath (d ++ ["trackstates_ckf.root"]));
     ("treeName", VStr "trackstates")].

Definition rootTrajectorySummaryWriter (lvl : Level) (d : Path)
    (trackFinder : Component) : Component :=
  mkComponent "RootTrajectorySummaryWriter" lvl
    [("inputTrajectories", cfg_out trackFinder "outputTrajectories");
     ("inputParticles", "particles_selected");
     ("inputMeasurementParticlesMap", "measurement_particles_map")]
    []
    [("filePath", VPath (d ++ ["tracksummary_ckf.root"]));
     ("treeName", VStr "tracksummary")].

Definition ckfPerformanceWriter (lvl : Level) (d : Path)
    (trackFinder : Component) (selectedParticles : string)
    (c : CKFPerformanceConfig.t) : Component :=
  mkComponent "CKFPerformanceWriter" lvl
    [("inputParticles", selectedParticles);
     ("inputTrajectories", cfg_out trackFinder "outputTrajectories");
     ("inputMeasurementParticlesMap", "measurement_particles_map")]
    []
    (defaultKWArgs ext
       [ ("nMeasurementsMin", opt_num (CKFPerformanceConfig.nMeasurementsMin c));
         ("ptMin", opt_num (CKFPerformanceConfig.ptMin c));
         ("truthMatchProbMin", opt_num (CKFPerformanceConfig.truthMatchProbMin c)) ]
     ++ [("filePath", VPath (d ++ ["performance_ckf.root"]))]).

Definition csvMultiTrajectoryWriter (lvl : Level) (d : Path)
    (trackFinder : Component) : Component :=
  mkComponent "CsvMultiTrajectoryWriter" lvl
    [("inputTrajectories", cfg_out trackFinder "outputTrajectories");
     ("inputMeasurementParticlesMap", "measurement_particles_map")]
    []
    [("outputDir", VPath d)].

Definition addCKFTracks (a : CKF.Args) : M unit :=
  s <- get_seq ;;
  (if (level_value (logLevel (config s)) <=? level_value DEBUG)%Z
   then dump_args_calls else ret tt) ;;
  let trackFinder :=
    trackFindingAlgorithm (logLevel (config s))
      (CKF.trackingGeometry a) (CKF.field a) in
  addAlgorithm trackFinder ;;
  match CKF.outputDirRoot a with
  | Some outputDirRoot =>
      ensure_dir outputDirRoot ;;
      addWriter
        (rootTrajectoryStatesWriter (logLevel (config s)) outputDirRoot trackFinder) ;;
      addWriter
        (rootTrajectorySummaryWriter (logLevel (config s)) outputDirRoot trackFinder) ;;
      addWriter
        (ckfPerformanceWriter (logLevel (config s)) outputDirRoot trackFinder
           (CKF.selectedParticles a) (CKF.CKFPerformanceConfigArg a))
  | None => ret tt
  end ;;
  match CKF.outputDirCsv a with
  | Some outputDirCsv =>
      ensure_dir outputDirCsv ;;
      log ext "CKFExample" INFO "Writing CSV files" ;;
      addWriter
        (csvMultiTrajectoryWriter (logLevel (config s)) outputDirCsv trackFinder)
  | None => ret tt
  end.

End TrackFinding.

(** ** addVertexFitting *)

Inductive VertexFinder := Truth | AMVF | Iterative.

Module Vertexing.
Record Args := mk {
  field : Value;
  outputDirRoot : option Path;
  associatedParticles : string;
  trackParameters : string;
  vertexFinder : PyArg VertexFinder;
  logLevel : option Level
}.

Definition default (field : Value) : Args :=
  mk field None "particles_input" "trackparameters" (Member Truth) None.
End Vertexing.

(** [warnings.warn] prints to the standard error stream; the message is kept
    with the logged ones. *)
Definition warn (msg : string) : M unit :=
  fun w => (inr tt, mkWorld (seq w) (dirs w) (files w)
                      (logged w ++ [mkLog "warnings" WARNING msg]) (dumped w)).

Definition truthVertexFinder (lvl : Level) (selectedParticles : string) : Component :=
  mkComponent "TruthVertexFinder" lvl
    [("inputParticles", selectedParticles)]
    [("outputProtoVertices", "protovertices")]
    [("excludeSecondaries", VBool true)].

Definition vertexFitterAlgorithm (lvl : Level) (field : Value)
    (trackParameters inputProtoVertices outputVertices : string) : Component :=
  mkComponent "VertexFitterAlgorithm" lvl
    [("inputTrackParameters", trackParameters);
     ("inputProtoVertices", inputProtoVertices)]
    [("outputVertices", outputVertices)]
    [("bField", field)].

Definition iterativeVertexFinderAlgorithm (lvl : Level) (field : Value)
    (trackParameters outputVertices : string) : Component :=
  mkComponent "IterativeVertexFinderAlgorithm" lvl
    [("inputTrackParameters", trackParameters)]
    [("outputProtoVertices", "protovertices");
     ("outputVertices", outputVertices)]
    [("bField", field)].

Definition adaptiveMultiVertexFinderAlgorithm (lvl : Level) (field : Value)
    (trackParameters outputVertices outputTime : string) : Component :=
  mkComponent "AdaptiveMultiVertexFinderAlgorithm" lvl
    [("inputTrackParameters", trackParameters)]
    [("outputProtoVertices", "protovertices");
     ("outputVertices", outputVertices);
     ("outputTime", outputTime)]
    [("bField", field)].

Definition rootVertexPerformanceWriter (lvl : Level) (d : Path)
    (inputParticles selectedParticles associatedParticles trackParameters
       outputVertices outputTime : string) : Component :=
  mkComponent "RootVertexPerformanceWriter" lvl
    [("inputAllTruthParticles", inputParticles);
     ("inputSelectedTruthParticles", selectedParticles);
     ("inputAssociatedTruthParticles", associatedParticles);
     ("inputFittedTracks", trackParameters);
     ("inputVertices", outputVertices);
     ("inputTime", outputTime)]
    []
    [("treeName", VStr "vertexing");
     ("filePath", VPath (d ++ ["performance_vertexing.root"]))].

Definition addVertexFitting (a : Vertexing.Args) : M unit :=
  s <- get_seq ;;
  let customLogLevel := customLogLevel s (Vertexing.logLevel a) in
  (if (level_value (customLogLevel INFO) <=? level_value DEBUG)%Z
   then dump_args_calls else ret tt) ;;
  let inputParticles := "particles_input" in
  let outputVertices := "fittedVertices" in
  let selectedParticles := "particles_selected" in
  let trackParameters := Vertexing.trackParameters a in
  outputTime <-
    match Vertexing.vertexFinder a with
    | Member Truth =>
        let findVertices :=
          truthVertexFinder (customLogLevel VERBOSE) selectedParticles in
        addAlgorithm findVertices ;;
        let fitVertices :=
          vertexFitterAlgorithm (customLogLevel VERBOSE) (Vertexing.field a)
            trackParameters (cfg_out findVertices "outputProtoVertices")
            outputVertices in
        addAlgorithm fitVertices ;;
        ret ""
    | Member Iterative =>
        let findVertices :=
          iterativeVertexFinderAlgorithm (customLogLevel INFO) (Vertexing.field a)
            trackParameters outputVertices in
        addAlgorithm findVertices ;;
        ret ""
    | Member AMVF =>
        let outputTime := "outputTime" in
        let findVertices :=
          adaptiveMultiVertexFinderAlgorithm (customLogLevel INFO)
            (Vertexing.field a) trackParameters outputVertices outputTime in
        addAlgorithm findVertices ;;
        ret outputTime
    | Foreign _ => raise (RuntimeError "Invalid finder argument")
    end ;;
  match Vertexing.outputDirRoot a with
  | Some outputDirRoot =>
      ensure_dir outputDirRoot ;;
      (if String.eqb (Vertexing.associatedParticles a) selectedParticles
       then warn "Using RootVertexPerformanceWriter with smeared particles is not necessarily supported. Please get in touch with us"
       else ret tt) ;;
      addWriter
        (rootVertexPerformanceWriter (customLogLevel INFO) outputDirRoot
           inputParticles selectedParticles (Vertexing.associatedParticles a)
           trackParameters outputVertices outputTime)
  | None => ret tt
  end.

(** ** addTruthTrackingGsf *)

(** [TrackFittingAlgorithm(...)] of lines 445-464, with [gsfOptions]. *)
Definition gsfFittingAlgorithm (trackingGeometry field : Value) : Component :=
  let gsfOptions : KWArgs :=
    [("maxComponents", VNum 12);
     ("abortOnError", VBool false);
     ("disableAllMaterialHandling", VBool false)] in
  mkComponent "TrackFittingAlgorithm" INFO
    [("inputMeasurements", "measurements");
     ("inputSourceLinks", "sourcelinks");
     ("inputProtoTracks", "prototracks");
     ("inputInitialTrackParameters", "estimatedparameters")]
    [("outputTrajectories", "gsf_trajectories")]
    [("directNavigation", VBool false);
     ("pickTrack", VNum (-1));
     ("trackingGeometry", trackingGeometry);
     ("fit", VCall "TrackFittingAlgorithm.makeGsfFitterFunction"
               [trackingGeometry; field] gsfOptions)].

Definition addTruthTrackingGsf (trackingGeometry field : Value) : M unit :=
  let gsfAlg := gsfFittingAlgorithm trackingGeometry field in
  addAlgorithm gsfAlg.

(** ** addExaTrkx *)

(** [TruthSeedSelector(...)] of lines 613-620; [MeV] is [u.MeV] of
    [acts.UnitConstants]. *)
Definition exaTrkxSeedSelector (MeV : Q) : Component :=
  mkComponent "TruthSeedSelector" INFO
    [("inputParticles", "particles_initial");
     ("inputMeasurementParticlesMap", "measurement_particles_map")]
    [("outputParticles", "particles_seed_selected")]
    [("ptMin", VNum (500 * MeV)); ("nHitsMin", VNum 9)].

(** [TrackFindingAlgorithmExaTrkX(...)] of lines 640-655, with the
    [ExaTrkXTrackFinding] object it is given. *)
Definition trackFindingAlgorithmExaTrkX (onnxModelDir : Path) : Component :=
  let exaTrkxFinding :=
    VCall "ExaTrkXTrackFinding" []
      [("inputMLModuleDir", VPath onnxModelDir);
       ("spacepointFeatures", VNum 3);
       ("embeddingDim", VNum 8);
       ("rVal", VNum (16 # 10));
       ("knnVal", VNum 500);
       ("filterCut", VNum (21 # 100))] in
  mkComponent "TrackFindingAlgorithmExaTrkX" INFO
    [("inputSpacePoints", "spacepoints")]
    [("outputProtoTracks", "protoTracks")]
    [("trackFinderML", exaTrkxFinding)].

Definition addExaTrkx (ext : Externals) (MeV : Q) (trackingGeometry : Value)
    (geometrySelection onnxModelDir : Path) (outputDirRoot : option Path)
  : M unit :=
  addAlgorithm (exaTrkxSeedSelector MeV) ;;
  geometryList <- lift_result (readJsonGeometryList ext geometrySelection) ;;
  addAlgorithm (spacePointMaker INFO trackingGeometry geometryList) ;;
  addAlgorithm (trackFindingAlgorithmExaTrkX onnxModelDir) ;;
  match outputDirRoot with
  | Some outputDirRoot =>
      addWriter
        (trackFinderPerformanceWriter INFO outputDirRoot "protoTracks"
           "particles_initial" "measurement_particles_map")
  | None => ret tt
  end.

(** ** Calls in sequence *)

Definition seeding_then_kalman (ext : Externals) (a : Seeding.Args)
    (trackingGeometry field : Value) (reverseFilteringMomThreshold : Q) : M unit :=
  addSeeding ext a ;;
  addKalmanTracks trackingGeometry field false reverseFilteringMomThreshold.

Definition seeding_then_ckf (ext : Externals) (a : Seeding.Args) (b : CKF.Args)
  : M unit :=
  addSeeding ext a ;; addCKFTracks ext b.

Definition kalman_then_gsf (trackingGeometry field : Value)
    (reverseFilteringMomThreshold : Q) : M unit :=
  addKalmanTracks trackingGeometry field false reverseFilteringMomThreshold ;;
  addTruthTrackingGsf trackingGeometry field.

(** The number of stages of the list that produce the key. *)
Definition producers (key : string) (l : list Stage) : nat :=
  length (filter (produces key) l).

(** The keys addCKFTracks and addKalmanTracks expect from the stages added
    before the call. *)
Definition kalman_upstream : list string :=
  [ "truth_seeds_selected"; "measurement_particles_map"; "measurements";
    "sourcelinks"; "estimatedparameters" ].

Definition exatrkx_upstream : list string :=
  [ "particles_initial"; "measurement_particles_map"; "sourcelinks";
    "measurements" ].

(** ** What a call added, and dependency order *)

(** The stages appended to the sequencer between two worlds. *)
Definition added (before after : World) : list Stage :=
  skipn (length (stages (seq before))) (stages (seq after)).

(** The key is produced by one of the stages. *)
Definition available (before : list Stage) (k : string) : Prop :=
  exists p, In p before /\ In k (producedOutputs p).

(** Every required input of the stage is produced by a stage before it. *)
Definition supplied (before : list Stage) (st : Stage) : Prop :=
  forall k, In k (requiredInputs st) -> available before k.

(** Every stage of the list is supplied by the stages added before it. *)
Definition dependency_ordered (l : list Stage) : Prop :=
  forall pre st post, l = pre ++ st :: post -> supplied pre st.

(** The stages [new], appended in this order after [before], are each
    supplied by the stages that precede them. *)
Fixpoint ordered_after (before new : list Stage) : Prop :=
  match new with
  | [] => True
  | st :: r => supplied before st /\ ordered_after (before ++ [st]) r
  end.

(** The keys that addSeeding and addVertexFitting expect from the stages
    added before the call (event generation, simulation, digitization). *)
Definition seeding_upstream (a : Seeding.Args) : list string :=
  [ Seeding.inputParticles a; "measurement_particles_map"; "sourcelinks";
    "measurements"; "simhits"; "measurement_simhits_map" ].

Definition vertexing_upstream (a : Vertexing.Args) : list string :=
  [ "particles_selected"; "particles_input"; Vertexing.trackParameters a;
    Vertexing.associatedParticles a ].

(** The stage class that only the given branch of the if/elif chain adds. *)
Definition seeding_branch_stage (v : SeedingAlgorithm) : string :=
  match v with
  | TruthSmeared => "ParticleSmearing"
  | TruthEstimated => "TruthTrackFinder"
  | Default => "SeedingAlgorithm"
  | Orthogonal => "SeedingOrthogonalAlgorithm"
  end.

Definition vertexing_branch_stage (v : VertexFinder) : string :=
  match v with
  | Truth => "TruthVertexFinder"
  | Iterative => "IterativeVertexFinderAlgorithm"
  | AMVF => "AdaptiveMultiVertexFinderAlgorithm"
  end.

(** The stage that produces the shared track-parameters key. *)
Definition parameters_stage (v : SeedingAlgorithm) : string :=
  match v with
  | TruthSmeared => "ParticleSmearing"
  | _ => "TrackParamsEstimationAlgorithm"
  end.

(** Two calls of addSeeding that differ at most in [geoSelectionConfigFile],
    [seedfinderConfigArg] and [trackParamsEstimationConfig]. *)
Definition same_but_seedfinding (a b : Seeding.Args) : Prop :=
  Seeding.trackingGeometry a = Seeding.trackingGeometry b /\
  Seeding.field a = Seeding.field b /\
  Seeding.seedingAlgorithm a = Seeding.seedingAlgorithm b /\
  Seeding.truthSeedRanges a = Seeding.truthSeedRanges b /\
  Seeding.particleSmearingSigmas a = Seeding.particleSmearingSigmas b /\
  Seeding.initialVarInflation a = Seeding.initialVarInflation b /\
  Seeding.inputParticles a = Seeding.inputParticles b /\
  Seeding.outputDirRoot a = Seeding.outputDirRoot b /\
  Seeding.logLevel a = Seeding.logLevel b /\
  Seeding.rnd a = Seeding.rnd b.

(** The same call with another [outputDirRoot] (and [outputDirCsv]). *)
Definition seeding_with_output (a : Seeding.Args) (d : option Path) : Seeding.Args :=
  Seeding.mk (Seeding.trackingGeometry a) (Seeding.field a)
    (Seeding.geoSelectionConfigFile a) (Seeding.seedingAlgorithm a)
    (Seeding.truthSeedRanges a) (Seeding.particleSmearingSigmas a)
    (Seeding.initialVarInflation a) (Seeding.seedfinderConfigArg a)
    (Seeding.trackParamsEstimationConfig a) (Seeding.inputParticles a)
    d (Seeding.logLevel a) (Seeding.rnd a).

Definition ckf_with_output (a : CKF.Args) (csv root : option Path) : CKF.Args :=
  CKF.mk (CKF.trackingGeometry a) (CKF.field a) (CKF.CKFPerformanceConfigArg a)
    csv root (CKF.selectedParticles a).

Definition vertexing_with_output (a : Vertexing.Args) (d : option Path)
  : Vertexing.Args :=
  Vertexing.mk (Vertexing.field a) d (Vertexing.associatedParticles a)
    (Vertexing.trackParameters a) (Vertexing.vertexFinder a)
    (Vertexing.logLevel a).

(** ** The pipeline validator of the specification *)

Module Validator.

Inductive ConfigurationError :=
| UnsatisfiedDependency (stage : string) (missingKey : string)
| DuplicateProduct (key : string) (firstStage secondStage : string).

Definition has_key (k : string) (l : list string) : bool :=
  existsb (String.eqb k) l.

(** Modelled from the spec: the dependency check of the pipeline
    builder/validator (section 4.3), which is part of the sequencer and
    absent from the sources: for every stage, in the declared order, all
    required inputs are among the outputs of the preceding stages. *)
Fixpoint check_dependencies (avail : list string) (l : list Stage)
  : option ConfigurationError :=
  match l with
  | [] => None
  | st :: r =>
      match find (fun k => negb (has_key k avail)) (requiredInputs st) with
      | Some k => Some (UnsatisfiedDependency (cls (comp st)) k)
      | None => check_dependencies (avail ++ producedOutputs st) r
      end
  end.

(** Modelled from the spec: the global-uniqueness check of section 4.3,
    absent from the sources: no two stages produce the same key. *)
Fixpoint check_unique (seen : list (string * string)) (l : list Stage)
  : option ConfigurationError :=
  match l with
  | [] => None
  | st :: r =>
      match find (fun k => match assoc k seen with Some _ => true | None => false end)
                 (producedOutputs st) with
      | Some k =>
          Some (DuplicateProduct k
                  (match assoc k seen with Some f => f | None => "" end)
                  (cls (comp st)))
      | None =>
          check_unique
            (seen ++ map (fun k => (k, cls (comp st))) (producedOutputs st)) r
      end
  end.

(** Modelled from the spec: [build] of section 4.3, absent from the
    sources.  It reports a violation or hands back the stage list, in the
    declared order, as the runnable pipeline. *)
Definition build (l : list Stage) : ConfigurationError + list Stage :=
  match check_dependencies [] l with
  | Some e => inl e
  | None =>
      match check_unique [] l with
      | Some e => inl e
      | None => inr l
      end
  end.

End Validator.

(** ** The run scripts

    physmon.py and the tests of test_examples.py construct sequencers, hand
    them to assembling functions that live outside the embedded sources
    ([runCKFTracks], [runTruthTracking], ...), run them, delete them and
    inspect the files written.  A script is embedded as a computation that
    records these actions, in order, for a run in which every assertion
    passes. *)

Module Scripts.

Inductive Event :=
| Construct (id : nat) (events numThreads : option Z)
    (* [Sequencer(events=.., numThreads=..)]; [None]: keyword not given *)
| Assemble (id : nat) (fn : string) (args : list Value) (kwargs : KWArgs)
    (* [fn(args, kwargs, s=<id>)] *)
| AddStage (id : nat) (method : string)
| Run (id : nat)
| Destroy (id : nat)                       (* [del s] *)
| Inspect (how : string) (p : Path)        (* an assertion on an output *)
| AssertAbsent (p : Path)                  (* [assert not p.exists()] *)
| AssertEmpty (p : Path)                   (* [len(list(p.iterdir())) == 0] *)
| Mkdir (p : Path)
| External (what : string).                (* copy, subprocess, other asserts *)

Record State := mkState {
  next_seq : nat;
  next_temp : nat;
  trace : list Event
}.

Definition Script (A : Type) : Type := State -> A * State.

Definition ret {A : Type} (a : A) : Script A := fun st => (a, st).
Definition bind {A B : Type} (m : Script A) (f : A -> Script B) : Script B :=
  fun st => let (a, st') := m st in f a st'.

Declare Scope script_scope.
Delimit Scope script_scope with script.
Notation "x <- m ;; k" := (bind m (fun x => k))
  (at level 61, m at next level, right associativity) : script_scope.
Notation "m ;; k" := (bind m (fun _ => k))
  (at level 61, right associativity) : script_scope.
Local Open Scope script_scope.

Definition emit (e : Event) : Script unit :=
  fun st => (tt, mkState (next_seq st) (next_temp st) (trace st ++ [e])).

Definition Sequencer (events numThreads : option Z) : Script nat :=
  fun st =>
    (next_seq st,
     mkState (S (next_seq st)) (next_temp st)
             (trace st ++ [Construct (next_seq st) events numThreads])).

(** [tempfile.TemporaryDirectory()]: [mktemp n] is the n-th directory the
    process is given. *)
Definition TemporaryDirectory (mktemp : nat -> Path) : Script Path :=
  fun st =>
    (mktemp (next_temp st),
     mkState (next_seq st) (S (next_temp st)) (trace st)).

Definition call (fn : string) (args : list Value) (kwargs : KWArgs) (s : nat)
  : Script unit := emit (Assemble s fn args kwargs).
Definition run (s : nat) : Script unit := emit (Run s).
Definition del (s : nat) : Script unit := emit (Destroy s).
Definition inspect (how : string) (p : Path) : Script unit := emit (Inspect how p).
Definition assert_absent (p : Path) : Script unit := emit (AssertAbsent p).
Definition assert_empty (p : Path) : Script unit := emit (AssertEmpty p).
Definition mkdir (p : Path) : Script unit := emit (Mkdir p).
Definition external (what : string) : Script unit := emit (External what).

Fixpoint for_each {A : Type} (l : list A) (body : A -> Script unit) : Script unit :=
  match l with
  | [] => ret tt
  | x :: r => body x ;; for_each r body
  end.

Definition when (b : bool) (m : Script unit) : Script unit :=
  if b then m else ret tt.

Definition trace_of (m : Script unit) : list Event :=
  trace (snd (m (mkState 0 0 []))).

(** *** CI/physmon/physmon.py *)

Definition physmon (events skip : Z) (outdir : Path) (mktemp : nat -> Path)
  : Script unit :=
  mkdir outdir ;;
  s <- Sequencer (Some events) (Some (-1)%Z) ;;
  tp <- TemporaryDirectory mktemp ;;
  call "runTruthTracking" [VRef "trackingGeometry"; VRef "field"]
    [("digiConfigFile", VRef "digiConfig"); ("outputDir", VPath tp)] s ;;
  run s ;;
  del s ;;
  inspect "exists" (tp ++ ["performance_track_fitter.root"]) ;;
  external "shutil.copy" ;;
  for_each
    [ (true, false, "truth_smeared");
      (false, true, "truth_estimated");
      (false, false, "seeded") ]
    (fun '(truthSmeared, truthEstimated, label) =>
       s <- Sequencer (Some events) (Some 1%Z) ;;
       tp <- TemporaryDirectory mktemp ;;
       call "runCKFTracks" [VRef "trackingGeometry"]
         [("decorators", VRef "decorators");
          ("field", VRef "field");
          ("digiConfigFile", VRef "digiConfig");
          ("geometrySelection", VRef "geoSel");
          ("outputDir", VPath tp);
          ("outputCsv", VBool false);
          ("truthSmearedSeeded", VBool truthSmeared);
          ("truthEstimatedSeeded", VBool truthEstimated)] s ;;
       run s ;;
       del s ;;
       inspect "exists" (tp ++ ["performance_ckf.root"]) ;;
       external "shutil.copy" ;;
       when (negb truthSmeared && negb truthEstimated)
         (external "ActsAnalysisResidualsAndPulls")).

(** *** Examples/Python/tests/test_examples.py *)

(** [assert_csv_output(csv_path, stem)] *)
Definition assert_csv_output (csv_path : Path) (stem : string) : Script unit :=
  inspect "iterdir" csv_path ;;
  inspect "iterdir" csv_path.

(** [assert_entries(root_file, tree_name, exp)] opens the file. *)
Definition assert_entries (root_file : Path) : Script unit :=
  inspect "TFile.Open" root_file.

Definition assert_root_hash (root_file : Path) : Script unit :=
  inspect "hash" root_file.

(** The [seq] fixture. *)
Definition seq_fixture : Script nat := Sequencer (Some 10%Z) (Some 1%Z).

Definition test_fatras (tmp_path : Path) : Script unit :=
  let csv := tmp_path ++ ["csv"] in
  mkdir csv ;;
  let nevents := 10%Z in
  let root_files :=
    [ "fatras_particles_final.root"; "fatras_particles_initial.root";
      "hits.root" ] in
  assert_empty csv ;;
  for_each root_files (fun rf => assert_absent (tmp_path ++ [rf])) ;;
  seq <- Sequencer (Some nevents) None ;;
  call "runFatras" [VRef "trk_geo"; VRef "field"; VPath tmp_path] [] seq ;;
  run seq ;;
  del seq ;;
  assert_csv_output csv "particles_final" ;;
  assert_csv_output csv "particles_initial" ;;
  assert_csv_output csv "hits" ;;
  for_each root_files
    (fun f =>
       let rfp := tmp_path ++ [f] in
       inspect "exists" rfp ;;
       inspect "stat" rfp ;;
       assert_entries rfp ;;
       assert_root_hash rfp).

Definition test_seeding (tmp_path : Path) : Script unit :=
  let csv := tmp_path ++ ["csv"] in
  mkdir csv ;;
  seq <- Sequencer (Some 10%Z) (Some 1%Z) ;;
  let root_files :=
    [ ("estimatedparams.root", true);
      ("performance_seeding_trees.root", true);
      ("performance_seeding_hists.root", false);
      ("evgen_particles.root", true);
      ("fatras_particles_final.root", true);
      ("fatras_particles_initial.root", true) ] in
  for_each root_files (fun '(fn, _) => assert_absent (tmp_path ++ [fn])) ;;
  assert_empty csv ;;
  call "runSeeding" [VRef "trk_geo"; VRef "field"]
    [("outputDir", VPath tmp_path)] seq ;;
  run seq ;;
  del seq ;;
  for_each root_files
    (fun '(fn, has_tree) =>
       let fp := tmp_path ++ [fn] in
       inspect "exists" fp ;;
       inspect "stat" fp ;;
       when has_tree (assert_entries fp ;; assert_root_hash fp)) ;;
  assert_csv_output csv "evgen_particles" ;;
  assert_csv_output csv "evgen_particles" ;;
  assert_csv_output csv "fatras_particles_final" ;;
  assert_csv_output csv "fatras_particles_initial".

Definition test_propagation (tmp_path : Path) : Script unit :=
  seq <- seq_fixture ;;
  let obj := tmp_path ++ ["obj"] in
  mkdir obj ;;
  let root_files := [ "propagation_steps.root" ] in
  for_each root_files (fun fn => assert_absent (tmp_path ++ [fn])) ;;
  assert_empty obj ;;
  call "runPropagation" [VRef "trk_geo"; VRef "field"; VPath tmp_path] [] seq ;;
  run seq ;;
  for_each root_files
    (fun fn =>
       let fp := tmp_path ++ [fn] in
       inspect "exists" fp ;;
       inspect "stat" fp ;;
       assert_entries fp ;;
       assert_root_hash fp) ;;
  inspect "iterdir" obj.

Definition test_event_recording (tmp_path : Path) : Script unit :=
  external "event_recording.py" ;;
  let out_path := tmp_path ++ ["hepmc3"] in
  inspect "iterdir" out_path ;;
  inspect "iterdir" out_path ;;
  s <- Sequencer None (Some 1%Z) ;;
  emit (AddStage s "addReader") ;;
  emit (AddStage s "addAlgorithm") ;;
  run s ;;
  external "assert alg.events_seen == 1".

Definition test_particle_gun (tmp_path : Path) : Script unit :=
  s <- Sequencer (Some 20%Z) (Some (-1)%Z) ;;
  let csv_dir := tmp_path ++ ["csv"] in
  let root_file := tmp_path ++ ["particles.root"] in
  assert_absent csv_dir ;;
  assert_absent root_file ;;
  call "runParticleGun" [VPath tmp_path] [] s ;;
  run s ;;
  inspect "exists" csv_dir ;;
  inspect "exists" root_file ;;
  inspect "iterdir" csv_dir ;;
  inspect "iterdir" csv_dir ;;
  inspect "stat" root_file ;;
  assert_entries root_file ;;
  assert_root_hash root_file.

Definition test_material_mapping (material_recording tmp_path : Path)
  : Script unit :=
  let map_file := tmp_path ++ ["material-maps_tracks.root"] in
  assert_absent map_file ;;
  s <- Sequencer None (Some 1%Z) ;;
  call "runMaterialMapping" [VRef "trackingGeometry"; VRef "decorators"]
    [("outputDir", VPath tmp_path); ("inputDir", VPath material_recording)] s ;;
  run s ;;
  del s ;;
  let mat_file := tmp_path ++ ["material-map.json"] in
  inspect "exists" mat_file ;;
  inspect "stat" mat_file ;;
  inspect "open" mat_file ;;
  inspect "exists" map_file ;;
  assert_entries map_file ;;
  assert_root_hash map_file ;;
  let val_file := tmp_path ++ ["propagation-material.root"] in
  assert_absent val_file ;;
  s <- Sequencer (Some 10%Z) (Some 1%Z) ;;
  call "runMaterialValidation"
    [VRef "trackingGeometry"; VRef "decorators"; VRef "field"]
    [("outputDir", VPath tmp_path)] s ;;
  run s ;;
  inspect "exists" val_file ;;
  assert_entries val_file ;;
  assert_root_hash val_file.

Definition digitization_volumes : list Z := [8; 9; 12; 13; 14; 16; 17; 18]%Z.
Definition digitization_input_volumes : list Z :=
  [7; 8; 9; 12; 13; 14; 16; 17; 18]%Z.

Definition test_digitization_example (tmp_path : Path) : Script unit :=
  s <- Sequencer (Some 10%Z) (Some (-1)%Z) ;;
  let csv_dir := tmp_path ++ ["csv"] in
  let root_file := tmp_path ++ ["measurements.root"] in
  assert_absent root_file ;;
  assert_absent csv_dir ;;
  call "configureDigitization" [VRef "trk_geo"; VRef "field"]
    [("outputDir", VPath tmp_path)] s ;;
  run s ;;
  inspect "exists" root_file ;;
  inspect "exists" csv_dir ;;
  inspect "iterdir" csv_dir ;;
  inspect "iterdir" csv_dir ;;
  for_each digitization_volumes (fun _ => assert_entries root_file) ;;
  assert_root_hash root_file.

Definition test_digitization_example_input (tmp_path : Path) : Script unit :=
  let ptcl_dir := tmp_path ++ ["ptcl"] in
  mkdir ptcl_dir ;;
  pgs <- Sequencer (Some 20%Z) (Some (-1)%Z) ;;
  call "runParticleGun" [VPath ptcl_dir] [] pgs ;;
  run pgs ;;
  s <- Sequencer None (Some (-1)%Z) ;;
  let csv_dir := tmp_path ++ ["csv"] in
  let root_file := tmp_path ++ ["measurements.root"] in
  assert_absent root_file ;;
  assert_absent csv_dir ;;
  assert_root_hash (ptcl_dir ++ ["particles.root"]) ;;
  call "configureDigitization" [VRef "trk_geo"; VRef "field"]
    [("outputDir", VPath tmp_path);
     ("particlesInput", VPath (ptcl_dir ++ ["particles.root"]))] s ;;
  run s ;;
  inspect "exists" root_file ;;
  inspect "exists" csv_dir ;;
  inspect "iterdir" csv_dir ;;
  inspect "iterdir" csv_dir ;;
  for_each digitization_input_volumes (fun _ => assert_entries root_file) ;;
  assert_root_hash root_file.

(** The three CKF tests differ in the two flags and in the files checked
    ([true]: tree name and entry count are given). *)
Definition ckf_tracks_example (truthSmeared truthEstimated : bool)
    (root_files : list (string * bool)) (tmp_path : Path) : Script unit :=
  s <- Sequencer (Some 10%Z) (Some 1%Z) ;;   (* Digitization is not thread-safe *)
  let csv := tmp_path ++ ["csv"] in
  assert_absent csv ;;
  for_each root_files (fun '(rf, _) => assert_absent (tmp_path ++ [rf])) ;;
  call "runCKFTracks" [VRef "trackingGeometry"; VRef "decorators"]
    [("field", VRef "field");
     ("geometrySelection",
      VPath ["Examples"; "Algorithms"; "TrackFinding"; "share";
             "geoSelection-genericDetector.json"]);
     ("digiConfigFile",
      VPath ["Examples"; "Algorithms"; "Digitization"; "share";
             "default-smearing-config-generic.json"]);
     ("outputCsv", VBool true);
     ("outputDir", VPath tmp_path);
     ("truthSmearedSeeded", VBool truthSmeared);
     ("truthEstimatedSeeded", VBool truthEstimated)] s ;;
  run s ;;
  del s ;;   (* files are closed in destructors, not great *)
  inspect "exists" csv ;;
  for_each root_files
    (fun '(rf, checked) =>
       let rp := tmp_path ++ [rf] in
       inspect "exists" rp ;;
       when checked (assert_entries rp ;; assert_root_hash rp)) ;;
  inspect "iterdir" csv ;;
  inspect "iterdir" csv.

Definition test_ckf_tracks_example_full_seeding : Path -> Script unit :=
  ckf_tracks_example false false
    [ ("performance_ckf.root", false);
      ("performance_seeding_trees.root", true);
      ("performance_seeding_trees.root", true);
      ("trackstates_ckf.root", true);
      ("tracksummary_ckf.root", true) ].

Definition test_ckf_tracks_example_truth_estimate : Path -> Script unit :=
  ckf_tracks_example false true
    [ ("performance_ckf.root", false);
      ("performance_seeding_trees.root", true);
      ("performance_seeding_trees.root", true);
      ("trackstates_ckf.root", true);
      ("tracksummary_ckf.root", true) ].

Definition test_ckf_tracks_example_truth_smeared : Path -> Script unit :=
  ckf_tracks_example true false
    [ ("performance_ckf.root", false);
      ("trackstates_ckf.root", true);
      ("tracksummary_ckf.root", true) ].

(** *** Properties of a recorded run *)

(** The call sets up digitization: it is [configureDigitization], or it is
    handed a digitization configuration file. *)
Definition uses_digitization (fn : string) (kwargs : KWArgs) : bool :=
  String.eqb fn "configureDigitization" ||
  match assoc "digiConfigFile" kwargs with Some _ => true | None => false end.

Fixpoint numThreads_of (id : nat) (t : list Event) : option Z :=
  match t with
  | [] => None
  | Construct id' _ n :: r => if Nat.eqb id id' then n else numThreads_of id r
  | _ :: r => numThreads_of id r
  end.

Definition digitizing (id : nat) (t : list Event) : bool :=
  existsb
    (fun e =>
       match e with
       | Assemble id' fn _ kw => Nat.eqb id id' && uses_digitization fn kw
       | _ => false
       end) t.

(** The [numThreads] of every run of a pipeline with digitization. *)
Definition digitization_run_threads (t : list Event) : list (option Z) :=
  flat_map
    (fun e =>
       match e with
       | Run id => if digitizing id t then [numThreads_of id t] else []
       | _ => []
       end) t.

Definition is_one (n : option Z) : bool :=
  match n with Some z => Z.eqb z 1 | None => false end.

Definition digitization_single_threaded (t : list Event) : bool :=
  forallb is_one (digitization_run_threads t).

(** No output is inspected while a sequencer that has run is still alive;
    [ran] are the sequencers that have run and are not deleted yet. *)
Fixpoint inspects_after_destroy (ran : list nat) (t : list Event) : bool :=
  match t with
  | [] => true
  | Run id :: r => inspects_after_destroy (id :: ran) r
  | Destroy id :: r =>
      inspects_after_destroy (filter (fun i => negb (Nat.eqb i id)) ran) r
  | Inspect _ _ :: r =>
      match ran with
      | [] => inspects_after_destroy ran r
      | _ :: _ => false
      end
  | _ :: r => inspects_after_destroy ran r
  end.

Definition del_before_inspection (t : list Event) : bool :=
  inspects_after_destroy [] t.

(** Every assembling call receives a sequencer that nothing was added to
    before; [touched] are the sequencers that already hold stages. *)
Fixpoint assembled_fresh (touched : list nat) (t : list Event) : bool :=
  match t with
  | [] => true
  | Assemble id _ _ _ :: r =>
      negb (existsb (Nat.eqb id) touched) && assembled_fresh (id :: touched) r
  | AddStage id _ :: r => assembled_fresh (id :: touched) r
  | _ :: r => assembled_fresh touched r
  end.

(** The sequencers handed to [runCKFTracks], with the two variant flags. *)
Definition ckf_variants (t : list Event) : list (nat * Value * Value) :=
  flat_map
    (fun e =>
       match e with
       | Assemble id "runCKFTracks" _ kw =>
           match assoc "truthSmearedSeeded" kw, assoc "truthEstimatedSeeded" kw with
           | Some a, Some b => [(id, a, b)]
           | _, _ => []
           end
       | _ => []
       end) t.

(** The tests of test_examples.py that drive a sequencer. *)
Definition sequencer_tests (material_recording tmp_path : Path)
  : list (string * Script unit) :=
  [ ("test_fatras", test_fatras tmp_path);
    ("test_seeding", test_seeding tmp_path);
    ("test_propagation", test_propagation tmp_path);
    ("test_event_recording", test_event_recording tmp_path);
    ("test_particle_gun", test_particle_gun tmp_path);
    ("test_material_mapping", test_material_mapping material_recording tmp_path);
    ("test_digitization_example", test_digitization_example tmp_path);
    ("test_digitization_example_input", test_digitization_example_input tmp_path);
    ("test_ckf_tracks_example_full_seeding",
     test_ckf_tracks_example_full_seeding tmp_path);
    ("test_ckf_tracks_example_truth_estimate",
     test_ckf_tracks_example_truth_estimate tmp_path);
    ("test_ckf_tracks_example_truth_smeared",
     test_ckf_tracks_example_truth_smeared tmp_path) ].

(** Every run script: physmon.py and the tests above. *)
Definition run_scripts (events skip : Z) (outdir : Path) (mktemp : nat -> Path)
    (material_recording tmp_path : Path) : list (string * Script unit) :=
  ("physmon", physmon events skip outdir mktemp)
    :: sequencer_tests material_recording tmp_path.

(** The scripts that delete the sequencer before they look at the output. *)
Definition deleting_scripts : list string :=
  [ "physmon"; "test_fatras"; "test_seeding";
    "test_ckf_tracks_example_full_seeding";
    "test_ckf_tracks_example_truth_estimate";
    "test_ckf_tracks_example_truth_smeared" ].

End Scripts.

(** ** Life cycle of the sequencers of a script *)

Inductive Phase := Constructed | Assembled | Ran | Deleted.

Fixpoint phase_of (id : nat) (st : list (nat * Phase)) : option Phase :=
  match st with
  | [] => None
  | (i, ph) :: r => if Nat.eqb id i then Some ph else phase_of id r
  end.

Definition set_phase (id : nat) (ph : Phase) (st : list (nat * Phase))
  : list (nat * Phase) :=
  (id, ph) :: filter (fun e => negb (Nat.eqb (fst e) id)) st.

(** Follow the sequencers through a recorded run: a sequencer is
    constructed once, receives stages only before it runs, runs once and
    only with stages, is deleted only after its run, and is not touched
    after [del].  [None]: the order is violated. *)
Fixpoint lifecycle (st : list (nat * Phase)) (t : list Scripts.Event)
  : option (list (nat * Phase)) :=
  match t with
  | [] => Some st
  | Scripts.Construct id _ _ :: r =>
      match phase_of id st with
      | None => lifecycle (set_phase id Constructed st) r
      | Some _ => None
      end
  | Scripts.Assemble id _ _ _ :: r | Scripts.AddStage id _ :: r =>
      match phase_of id st with
      | Some Constructed | Some Assembled => lifecycle (set_phase id Assembled st) r
      | _ => None
      end
  | Scripts.Run id :: r =>
      match phase_of id st with
      | Some Assembled => lifecycle (set_phase id Ran st) r
      | _ => None
      end
  | Scripts.Destroy id :: r =>
      match phase_of id st with
      | Some Ran => lifecycle (set_phase id Deleted st) r
      | _ => None
      end
  | _ :: r => lifecycle st r
  end.

Definition has_run (ph : Phase) : bool :=
  match ph with Ran | Deleted => true | _ => false end.

(** Every sequencer of the script went through the life cycle and has run. *)
Definition lifecycle_complete (t : list Scripts.Event) : bool :=
  match lifecycle [] t with
  | Some st => forallb (fun e => has_run (snd e)) st
  | None => false
  end.

(** ** Outcomes of a call *)

(** The later world extends the earlier one: stages, directories and log
    records are appended after those that were there, the sequencer
    configuration and the files are the same, and the number of argument
    dumps has not gone down. *)
Definition grows (w w' : World) : Prop :=
  (exists new, stages (seq w') = stages (seq w) ++ new)
  /\ config (seq w') = config (seq w)
  /\ files w' = files w
  /\ (exists made, dirs w' = dirs w ++ made)
  /\ (exists msgs, logged w' = logged w ++ msgs)
  /\ (dumped w <= dumped w')%nat.

(** Whatever the outcome, the call leaves a world that extends the one it
    started in. *)
Definition only_appends {A : Type} (m : M A) : Prop :=
  forall w, grows w (snd (m w)).

(** The number of [dump_args_calls] of a call whose [logLevel] argument is
    the given one: [customLogLevel()] is at least INFO when [logLevel] is
    given, and the sequencer's level otherwise. *)
Definition dump_count (s : Sequencer) (logLevel' : option Level) : nat :=
  match logLevel' with
  | None =>
      if (level_value (logLevel (config s)) <=? level_value DEBUG)%Z
      then 1%nat else 0%nat
  | Some _ => 0%nat
  end.

Definition is_some {A : Type} (o : option A) : bool :=
  match o with Some _ => true | None => false end.

Definition is_ok {A : Type} (r : Exc + A) : bool :=
  match r with inr _ => true | inl _ => false end.

(** [if not d.exists(): d.mkdir()] goes through: the path exists, or its
    parent is a directory. *)
Definition dir_ready (w : World) (d : Path) : bool :=
  path_exists w d || is_dir w (removelast d).


(** The calls of addSeeding that return. *)
Definition seeding_returns (ext : Externals) (a : Seeding.Args) (w : World) : bool :=
  match Seeding.seedingAlgorithm a with
  | Foreign _ => false
  | Member TruthSmeared => negb (logRaises ext INFO)
  | Member v =>
      negb (logRaises ext INFO)
      && is_ok (readJsonGeometryList ext (py_str (Seeding.geoSelectionConfigFile a)))
      && match v with
         | TruthEstimated => is_some (Seeding.truthSeedRanges a)
         | _ => true
         end
      && match Seeding.outputDirRoot a with
         | None => true
         | Some d => is_some (Seeding.truthSeedRanges a) && dir_ready w d
         end
  end.

(** The calls of addCKFTracks that return; the CSV directory is looked up
    in the world in which the ROOT directory has been created. *)
Definition ckf_returns (ext : Externals) (b : CKF.Args) (w : World) : bool :=
  let csv_ready (w' : World) :=
    match CKF.outputDirCsv b with
    | None => true
    | Some c => dir_ready w' c && negb (logRaises ext INFO)
    end in
  match CKF.outputDirRoot b with
  | None => csv_ready w
  | Some d => dir_ready w d && csv_ready (snd (ensure_dir d w))
  end.

(** The calls of addVertexFitting that return. *)
Definition vertexing_returns (a : Vertexing.Args) (w : World) : bool :=
  match Vertexing.vertexFinder a with
  | Foreign _ => false
  | Member _ =>
      match Vertexing.outputDirRoot a with
      | None => true
      | Some d => dir_ready w d
      end
  end.

(** The record that [warnings.warn] of lines 770-773 leaves. *)
Definition smeared_particles_warning : LogRecord :=
  mkLog "warnings" WARNING
    "Using RootVertexPerformanceWriter with smeared particles is not necessarily supported. Please get in touch with us".

(** The keys addCKFTracks expects from the stages added before the call. *)
Definition ckf_upstream (b : CKF.Args) : list string :=
  [ "measurements"; "sourcelinks"; "estimatedparameters"; "particles_selected";
    "simhits"; "measurement_particles_map"; "measurement_simhits_map";
    CKF.selectedParticles b ].

(** ** Example collaborators and worlds *)

Definition is_none (v : Value) : bool :=
  match v with VNone => true | _ => false end.

(** A logger that never raises, [defaultKWArgs] dropping the [None] values,
    and a geometry list read without failure. *)
Definition quiet_externals : Externals :=
  mkExternals (fun _ => false)
    (filter (fun kv => negb (is_none (snd kv))))
    (fun p => inr (VCall "readJsonGeometryList" [VPath p] [])).

(** The same collaborators with the failure threshold at FATAL, as
    physmon.py sets it. *)
Definition fatal_externals : Externals :=
  mkExternals (fun l => (level_value FATAL <=? level_value l)%Z)
    (defaultKWArgs quiet_externals) (readJsonGeometryList quiet_externals).

Definition empty_sequencer : Sequencer :=
  mkSequencer (mkSequencerConfig (Some 10%Z) 0%Z 1%Z INFO) [].

Definition empty_world : World := mkWorld empty_sequencer [] [] [] 0.

(** A stage standing for everything added before the helper is called: it
    produces the given keys. *)
Definition upstream_stage (keys : list string) : Stage :=
  mkStage Algorithm
    (mkComponent "Upstream" INFO [] (map (fun k => ("output", k)) keys) []).

Definition world_after (keys : list string) : World :=
  mkWorld (mkSequencer (config empty_sequencer) [upstream_stage keys]) [] [] [] 0.

Definition seeding_args (v : PyArg SeedingAlgorithm) (d : option Path)
  : Seeding.Args :=
  Seeding.mk (VRef "trackingGeometry") (VRef "field") (Some ["geoSel.json"]) v
    (Some TruthSeedRanges.default) ParticleSmearingSigmas.default None
    SeedfinderConfigArg.default TrackParamsEstimationConfig.default
    "particles_initial" d None None.

(** The same call without [truthSeedRanges]. *)
Definition seeding_args_no_ranges (v : PyArg SeedingAlgorithm) (d : option Path)
  : Seeding.Args :=
  Seeding.mk (VRef "trackingGeometry") (VRef "field") (Some ["geoSel.json"]) v
    None ParticleSmearingSigmas.default None
    SeedfinderConfigArg.default TrackParamsEstimationConfig.default
    "particles_initial" d None None.

(** Collaborators whose geometry selection file is missing. *)
Definition missing_geometry_externals : Externals :=
  mkExternals (fun _ => false) (defaultKWArgs quiet_externals)
    (fun p => inl (FileNotFoundError p)).

Definition ckf_args (csv root : option Path) : CKF.Args :=
  CKF.mk (VRef "trackingGeometry") (VRef "field") CKFPerformanceConfig.default
    csv root "truth_seeds_selected".

Definition vertexing_args (v : PyArg VertexFinder) (d : option Path)
    (associatedParticles : string) : Vertexing.Args :=
  Vertexing.mk (VRef "field") d associatedParticles "trackparameters" v None.

(** * Properties *)

(** ** Symbolic execution of the helpers *)

Arguments bind {A B} m f w /.
Arguments log ext name l msg w /.
Arguments ensure_dir p w /.
Arguments mkdir p w /.
Arguments lift_result {A} r /.
Arguments path_exists w p /.
Arguments is_dir w p /.

Lemma skipn_length_app {A : Type} (l r : list A) : skipn (length l) (l ++ r) = r.
Proof. induction l as [|x l IH]; simpl; auto. Qed.

Lemma added_app (w w' : World) (r : list Stage) :
  stages (seq w') = stages (seq w) ++ r -> added w w' = r.
Proof. unfold added. intros ->. apply skipn_length_app. Qed.

(** Unfold the monad and the primitives in [H] / in the goal. *)
Ltac py_cbn H :=
  cbn [bind ret raise get_seq addAlgorithm addWriter dump_args_calls log warn
       load_local load_global lift_result set_stages ensure_dir mkdir
       fst snd seq stages dirs files logged dumped config
       path_exists is_dir orb] in H.

Ltac py_goal :=
  cbn [bind ret raise get_seq addAlgorithm addWriter dump_args_calls log warn
       load_local load_global lift_result set_stages ensure_dir mkdir
       fst snd seq stages dirs files logged dumped config
       path_exists is_dir orb].

(** Split on the next thing the run depends on: the logger, the geometry
    file, the log level, the file system. *)
Ltac py_case H :=
  match type of H with
  | context [logRaises ?e ?l] => destruct (logRaises e l) eqn:?
  | context [readJsonGeometryList ?e ?p] =>
      destruct (readJsonGeometryList e p) eqn:?
  | context [(?a <=? ?b)%Z] => destruct (a <=? b)%Z eqn:?
  | context [String.eqb ?a ?b] => destruct (String.eqb a b) eqn:?
  | context [match ?p with [] => _ | _ => _ end] => is_var p; destruct p eqn:?
  | context [match removelast ?p with _ => _ end] =>
      destruct (removelast p) eqn:?
  | context [mem_path ?p ?l] => destruct (mem_path p l) eqn:?
  end.

Ltac py_exec H := py_cbn H; repeat (py_case H; py_cbn H).

Ltac seeding_fields :=
  cbn [Seeding.seedingAlgorithm Seeding.truthSeedRanges Seeding.outputDirRoot
       Seeding.logLevel Seeding.inputParticles Seeding.rnd
       Seeding.geoSelectionConfigFile Seeding.trackingGeometry Seeding.field
       Seeding.particleSmearingSigmas Seeding.initialVarInflation
       Seeding.seedfinderConfigArg Seeding.trackParamsEstimationConfig] in *.

Ltac ckf_fields :=
  cbn [CKF.trackingGeometry CKF.field CKF.CKFPerformanceConfigArg
       CKF.outputDirCsv CKF.outputDirRoot CKF.selectedParticles] in *.

Ltac vertexing_fields :=
  cbn [Vertexing.field Vertexing.outputDirRoot Vertexing.associatedParticles
       Vertexing.trackParameters Vertexing.vertexFinder Vertexing.logLevel] in *.

(** The stages a finished run added, read off the final stage list. *)
Ltac added_stages :=
  erewrite added_app
    by (cbn [stages seq];
        first [ rewrite <- ?app_assoc; reflexivity
              | symmetry; apply app_nil_r ]).

(** ** addKalmanTracks *)

(** C8.  With [directNavigation=True] addKalmanTracks raises NameError for
    [outputSimHits] after the truth track finder and before any surface
    sorting algorithm is added: neither [outputSimHits] nor [digiAlg] is a
    local of the function or a name of the module; with
    [directNavigation=False] it returns, having added the truth track finder
    and the fitting algorithm. *)
Theorem addKalmanTracks_directNavigation_NameError
    (trackingGeometry field : Value) (threshold : Q) (w : World) :
  (fst (addKalmanTracks trackingGeometry field true threshold w)
     = inl (NameError "outputSimHits")
   /\ stage_names (added w (snd (addKalmanTracks trackingGeometry field true threshold w)))
     = ["TruthTrackFinder"])
  /\ (existsb (String.eqb "outputSimHits") module_globals = false
      /\ existsb (String.eqb "digiAlg") module_globals = false)
  /\ (fst (addKalmanTracks trackingGeometry field false threshold w) = inr tt
      /\ stage_names (added w (snd (addKalmanTracks trackingGeometry field false threshold w)))
         = ["TruthTrackFinder"; "TrackFittingAlgorithm"]
      /\ forallb is_algorithm
           (added w (snd (addKalmanTracks trackingGeometry field false threshold w)))
         = true).
Proof.
  unfold addKalmanTracks. repeat split; py_goal; try reflexivity;
    added_stages; reflexivity.
Qed.

(** ** The shared track-parameters key *)

(** The track finder is the first stage addCKFTracks adds, on every path. *)
Lemma addCKFTracks_adds_track_finder (ext : Externals) (b : CKF.Args) (w : World) :
  exists rest,
    added w (snd (addCKFTracks ext b w))
    = mkStage Algorithm
        (trackFindingAlgorithm (logLevel (config (seq w)))
           (CKF.trackingGeometry b) (CKF.field b)) :: rest
    /\ forallb is_writer rest = true.
Proof.
  destruct b as [tg fld cfg csv root sel]. ckf_fields.
  remember (addCKFTracks ext _ w) as r eqn:Hr.
  unfold addCKFTracks in Hr. ckf_fields.
  destruct root as [d|], csv as [c|]; py_exec Hr;
    subst r; py_goal; added_stages; eexists; split; reflexivity.
Qed.

(** C1.  For each of the four seeding variants, exactly one of the stages
    addSeeding adds produces the key "estimatedparameters": ParticleSmearing
    for TruthSmeared, TrackParamsEstimationAlgorithm otherwise; and the track
    finding stage that addCKFTracks adds, whatever the variant, reads its
    initial track parameters under that key. *)
Theorem estimatedparameters_shared_by_variants
    (ext : Externals) (a : Seeding.Args) (v : SeedingAlgorithm) (w : World)
    (b : CKF.Args) (w2 : World) :
  Seeding.seedingAlgorithm a = Member v ->
  fst (addSeeding ext a w) = inr tt ->
  (exists st,
      filter (produces "estimatedparameters") (added w (snd (addSeeding ext a w)))
      = [st]
      /\ cls (comp st) = parameters_stage v
      /\ assoc "outputTrackParameters" (outputs (comp st))
         = Some "estimatedparameters")
  /\ (exists tf rest,
         added w2 (snd (addCKFTracks ext b w2)) = tf :: rest
         /\ kind tf = Algorithm
         /\ cls (comp tf) = "TrackFindingAlgorithm"
         /\ assoc "inputInitialTrackParameters" (inputs (comp tf))
            = Some "estimatedparameters"
         /\ forallb is_writer rest = true).
Proof.
  intros Hv Hok. split.
  - destruct a as [tg fld geo alg tsr pss ivi sfc tpe ip odr ll rnd].
    seeding_fields. subst alg. revert Hok.
    remember (addSeeding ext _ w) as r eqn:Hr.
    unfold addSeeding in Hr. seeding_fields.
    destruct v, tsr as [tsr|], odr as [d|]; py_exec Hr;
      subst r; py_goal; intros Hok; try discriminate Hok;
      added_stages; eexists; repeat split; reflexivity.
  - destruct (addCKFTracks_adds_track_finder ext b w2) as [rest [Hadd Hw]].
    eexists; exists rest. rewrite Hadd. repeat split; auto.
Qed.

(** A run of the Default variant, followed by addCKFTracks. *)
Lemma estimatedparameters_shared_by_variants_witness :
  Seeding.seedingAlgorithm (seeding_args (Member Default) None) = Member Default
  /\ fst (addSeeding quiet_externals (seeding_args (Member Default) None) empty_world)
     = inr tt
  /\ (exists st,
        filter (produces "estimatedparameters")
          (added empty_world
             (snd (addSeeding quiet_externals
                     (seeding_args (Member Default) None) empty_world)))
        = [st]
        /\ cls (comp st) = "TrackParamsEstimationAlgorithm"
        /\ assoc "outputTrackParameters" (outputs (comp st))
           = Some "estimatedparameters").
Proof.
  split; [reflexivity|]. split; [reflexivity|].
  apply (estimatedparameters_shared_by_variants quiet_externals
           (seeding_args (Member Default) None) Default empty_world
           (CKF.default (VRef "trackingGeometry") (VRef "field")) empty_world);
    reflexivity.
Defined.

(** ** Invalid variant selections *)

(** addVertexFitting rejects a finder outside the enumeration with
    RuntimeError("Invalid finder argument"), before any stage is added. *)
Lemma addVertexFitting_rejects_foreign (a : Vertexing.Args) (repr : string) (w : World) :
  Vertexing.vertexFinder a = Foreign repr ->
  fst (addVertexFitting a w) = inl (RuntimeError "Invalid finder argument")
  /\ added w (snd (addVertexFitting a w)) = []
  /\ dirs (snd (addVertexFitting a w)) = dirs w.
Proof.
  intros Hf. destruct a as [fld odr ap tp vf ll]. vertexing_fields. subst vf.
  remember (addVertexFitting _ w) as r eqn:Hr.
  unfold addVertexFitting in Hr. vertexing_fields.
  py_exec Hr; subst r; py_goal; repeat split; added_stages; reflexivity.
Qed.

(** addSeeding never returns normally for an algorithm outside the
    enumeration... *)
Lemma addSeeding_foreign_never_returns
    (ext : Externals) (a : Seeding.Args) (repr : string) (w : World) :
  Seeding.seedingAlgorithm a = Foreign repr ->
  fst (addSeeding ext a w) <> inr tt.
Proof.
  intros Hf. destruct a as [tg fld geo alg tsr pss ivi sfc tpe ip odr ll rnd].
  seeding_fields. subst alg.
  remember (addSeeding ext _ w) as r eqn:Hr.
  unfold addSeeding in Hr. seeding_fields.
  destruct tsr as [tsr|], odr as [d|]; py_exec Hr;
    subst r; py_goal; discriminate.
Qed.

(** ... but when the logger does not raise on the FATAL message, what ends
    the call is the unbound local [inputSeeds], after the selector and the
    space point maker were added. *)
Lemma addSeeding_foreign_unbound_local
    (ext : Externals) (a : Seeding.Args) (repr : string) (w : World) (g : Value) :
  Seeding.seedingAlgorithm a = Foreign repr ->
  logRaises ext FATAL = false ->
  readJsonGeometryList ext (py_str (Seeding.geoSelectionConfigFile a)) = inr g ->
  fst (addSeeding ext a w) = inl (UnboundLocalError "inputSeeds")
  /\ exists sp,
       added w (snd (addSeeding ext a w))
       = match Seeding.truthSeedRanges a with
         | Some r =>
             [mkStage Algorithm
                (truthSeedSelector ext
                   (customLogLevel (seq w) (Seeding.logLevel a) INFO) r
                   (Seeding.inputParticles a)); sp]
         | None => [sp]
         end
       /\ cls (comp sp) = "SpacePointMaker".
Proof.
  intros Hf Hq Hg. destruct a as [tg fld geo alg tsr pss ivi sfc tpe ip odr ll rnd].
  seeding_fields. subst alg.
  remember (addSeeding ext _ w) as r eqn:Hr.
  unfold addSeeding in Hr. seeding_fields. rewrite Hg in Hr.
  destruct tsr as [tsr|]; py_cbn Hr; rewrite Hq in Hr; py_exec Hr;
    subst r; py_goal; (split; [reflexivity|]);
    added_stages; eexists; split; reflexivity.
Qed.

(** C4.  addSeeding called with an object outside SeedingAlgorithm (here an
    enumeration member of VertexFinder) and a logger below its failure
    threshold: the fatal message is logged, two stages are already added, and
    the call ends in UnboundLocalError for [inputSeeds], not in a
    configuration error. *)
Theorem addSeeding_unknown_algorithm_not_rejected :
  fst (addSeeding quiet_externals
         (seeding_args (Foreign "VertexFinder.Truth") None) empty_world)
  = inl (UnboundLocalError "inputSeeds")
  /\ stage_names
       (stages (seq (snd (addSeeding quiet_externals
                            (seeding_args (Foreign "VertexFinder.Truth") None)
                            empty_world))))
     = ["TruthSeedSelector"; "SpacePointMaker"]
  /\ logged (snd (addSeeding quiet_externals
                    (seeding_args (Foreign "VertexFinder.Truth") None)
                    empty_world))
     = [mkLog "addSeeding" FATAL "unknown seedingAlgorithm VertexFinder.Truth"]
  /\ fst (addVertexFitting
            (Vertexing.mk (VRef "field") None "particles_input" "trackparameters"
               (Foreign "SeedingAlgorithm.Default") None) empty_world)
     = inl (RuntimeError "Invalid finder argument").
Proof. repeat split; vm_compute; reflexivity. Qed.

(** With the failure threshold at FATAL the same call is ended by the
    logger. *)
Lemma addSeeding_unknown_algorithm_threshold :
  fst (addSeeding fatal_externals
         (seeding_args (Foreign "VertexFinder.Truth") None) empty_world)
  = inl (ThresholdFailure FATAL).
Proof. vm_compute. reflexivity. Qed.

(** ** TruthSmeared *)

(** The TruthSmeared branch never reaches the writer block. *)
Lemma addSeeding_truth_smeared_no_writers
    (ext : Externals) (a : Seeding.Args) (w : World) :
  Seeding.seedingAlgorithm a = Member TruthSmeared ->
  filter is_writer (added w (snd (addSeeding ext a w))) = []
  /\ dirs (snd (addSeeding ext a w)) = dirs w.
Proof.
  intros Hv.
  destruct a as [tg fld geo alg tsr pss ivi sfc tpe ip odr ll rnd].
  seeding_fields. subst alg.
  remember (addSeeding ext _ w) as r eqn:Hr.
  unfold addSeeding in Hr. seeding_fields.
  destruct tsr as [tsr|]; py_exec Hr; subst r; py_goal;
    (split; [added_stages|]); reflexivity.
Qed.

(** C9.  With TruthSmeared, two calls that differ at most in
    [geoSelectionConfigFile], [seedfinderConfigArg] and
    [trackParamsEstimationConfig] end alike and leave the same sequencer; no
    writer is appended and no directory is created, whatever
    [outputDirRoot] is. *)
Theorem truth_smeared_ignores_seedfinding
    (ext : Externals) (a b : Seeding.Args) (w : World) :
  Seeding.seedingAlgorithm a = Member TruthSmeared ->
  same_but_seedfinding a b ->
  addSeeding ext a w = addSeeding ext b w
  /\ filter is_writer (added w (snd (addSeeding ext a w))) = []
  /\ dirs (snd (addSeeding ext a w)) = dirs w.
Proof.
  intros Hv Hs.
  destruct a as [tg fld geo alg tsr pss ivi sfc tpe ip odr ll rnd].
  destruct b as [tg' fld' geo' alg' tsr' pss' ivi' sfc' tpe' ip' odr' ll' rnd'].
  unfold same_but_seedfinding in Hs. seeding_fields.
  destruct Hs as (? & ? & ? & ? & ? & ? & ? & ? & ? & ?). subst.
  split.
  - unfold addSeeding. seeding_fields. reflexivity.
  - apply addSeeding_truth_smeared_no_writers. reflexivity.
Qed.

Lemma truth_smeared_ignores_seedfinding_witness :
  addSeeding quiet_externals (seeding_args (Member TruthSmeared) (Some ["out"]))
    empty_world
  = addSeeding quiet_externals
      (Seeding.mk (VRef "trackingGeometry") (VRef "field") None (Member TruthSmeared)
         (Some TruthSeedRanges.default) ParticleSmearingSigmas.default None
         (SeedfinderConfigArg.mk (Some 1%Q) None None None (Some 500%Q) None None
            no_range no_range no_range no_range None)
         (TrackParamsEstimationConfig.mk (Some 10%Q, None))
         "particles_initial" (Some ["out"]) None None)
      empty_world
  /\ filter is_writer
       (added empty_world
          (snd (addSeeding quiet_externals
                  (seeding_args (Member TruthSmeared) (Some ["out"])) empty_world)))
     = []
  /\ dirs (snd (addSeeding quiet_externals
                  (seeding_args (Member TruthSmeared) (Some ["out"])) empty_world))
     = dirs empty_world.
Proof.
  apply truth_smeared_ignores_seedfinding.
  - reflexivity.
  - unfold same_but_seedfinding; repeat split; reflexivity.
Defined.

(** In contrast the Default variant does read the seed finder
    configuration. *)
Lemma default_variant_reads_seedfinder_config :
  addSeeding quiet_externals (seeding_args (Member Default) None) empty_world
  <> addSeeding quiet_externals
       (Seeding.mk (VRef "trackingGeometry") (VRef "field") (Some ["geoSel.json"])
          (Member Default)
          (Some TruthSeedRanges.default) ParticleSmearingSigmas.default None
          (SeedfinderConfigArg.mk (Some 1%Q) None None None None None None
             no_range no_range no_range no_range None)
          TrackParamsEstimationConfig.default
          "particles_initial" None None None)
       empty_world.
Proof. vm_compute. discriminate. Qed.

(** ** Output directories and writers *)

Lemma mem_path_app (p : Path) (l r : list Path) :
  mem_path p (l ++ r) = mem_path p l || mem_path p r.
Proof.
  induction l as [|q l IH]; simpl; auto.
  destruct (list_eq_dec string_dec p q); auto.
Qed.

Lemma mem_path_head (p : Path) (r : list Path) : mem_path p (p :: r) = true.
Proof. simpl. destruct (list_eq_dec string_dec p p); congruence. Qed.

(** Use what the case analysis found out about the file system. *)
Ltac fs_facts :=
  repeat match goal with
    | H : mem_path ?p ?l = _ |- context [mem_path ?p ?l] => rewrite H
    | |- context [mem_path _ (_ ++ _)] => rewrite mem_path_app
    | |- context [mem_path ?p (?p :: _)] => rewrite mem_path_head
    end;
  cbn [orb andb].

(** Put two runs side by side, so that one case analysis serves both. *)
Ltac pair_runs H :=
  match goal with
  | |- ?f (added ?w (snd ?x)) = ?f (added ?w (snd ?y)) =>
      change (f (added w (snd (fst (x, y)))) = f (added w (snd (snd (x, y)))));
      remember (x, y) as rr eqn:H
  end.

(** *** addSeeding *)

Lemma addSeeding_without_output (ext : Externals) (a : Seeding.Args) (w : World) :
  Seeding.outputDirRoot a = None ->
  filter is_writer (added w (snd (addSeeding ext a w))) = []
  /\ dirs (snd (addSeeding ext a w)) = dirs w.
Proof.
  intros Ho. destruct a as [tg fld geo alg tsr pss ivi sfc tpe ip odr ll rnd].
  seeding_fields. subst odr.
  remember (addSeeding ext _ w) as r eqn:Hr.
  unfold addSeeding in Hr. seeding_fields.
  destruct alg as [[]|repr], tsr as [tsr|]; py_exec Hr;
    subst r; py_goal; (split; [added_stages|]); reflexivity.
Qed.

Lemma addSeeding_algorithms_whatever_output
    (ext : Externals) (a : Seeding.Args) (d : Path) (w : World) :
  filter is_algorithm
    (added w (snd (addSeeding ext (seeding_with_output a (Some d)) w)))
  = filter is_algorithm
      (added w (snd (addSeeding ext (seeding_with_output a None) w))).
Proof.
  destruct a as [tg fld geo alg tsr pss ivi sfc tpe ip odr ll rnd].
  unfold seeding_with_output. seeding_fields.
  pair_runs Hr.
  unfold addSeeding in Hr. seeding_fields.
  destruct alg as [[]|repr], tsr as [tsr|]; py_exec Hr;
    subst rr; py_goal; added_stages; try added_stages; reflexivity.
Qed.

Lemma addSeeding_with_output
    (ext : Externals) (a : Seeding.Args) (v : SeedingAlgorithm) (d : Path) (w : World) :
  Seeding.seedingAlgorithm a = Member v ->
  v <> TruthSmeared ->
  Seeding.outputDirRoot a = Some d ->
  fst (addSeeding ext a w) = inr tt ->
  stage_names (filter is_writer (added w (snd (addSeeding ext a w))))
  = ["TrackFinderPerformanceWriter"; "SeedingPerformanceWriter";
     "RootTrackParameterWriter"]
  /\ path_exists (snd (addSeeding ext a w)) d = true
  /\ (path_exists w d = true -> dirs (snd (addSeeding ext a w)) = dirs w)
  /\ (path_exists w d = false -> dirs (snd (addSeeding ext a w)) = dirs w ++ [d]).
Proof.
  intros Hv Hn Ho. destruct a as [tg fld geo alg tsr pss ivi sfc tpe ip odr ll rnd].
  seeding_fields. subst alg odr.
  remember (addSeeding ext _ w) as r eqn:Hr.
  unfold addSeeding in Hr. seeding_fields.
  destruct v, tsr as [tsr|]; try congruence; py_exec Hr;
    subst r; py_goal; intros Hok; try discriminate Hok;
    (split; [added_stages; reflexivity|]);
    (split; [fs_facts; reflexivity|]);
    (split; intros Hp; py_cbn Hp; revert Hp; fs_facts; intros Hp;
       try discriminate Hp; reflexivity).
Qed.

(** *** addCKFTracks *)

Lemma addCKFTracks_without_output (ext : Externals) (b : CKF.Args) (w : World) :
  CKF.outputDirRoot b = None ->
  CKF.outputDirCsv b = None ->
  filter is_writer (added w (snd (addCKFTracks ext b w))) = []
  /\ dirs (snd (addCKFTracks ext b w)) = dirs w.
Proof.
  intros Hr' Hc. destruct b as [tg fld cfg csv root sel]. ckf_fields. subst.
  remember (addCKFTracks ext _ w) as r eqn:Hr.
  unfold addCKFTracks in Hr. ckf_fields.
  py_exec Hr; subst r; py_goal; (split; [added_stages|]); reflexivity.
Qed.

Lemma addCKFTracks_algorithms_whatever_output
    (ext : Externals) (b : CKF.Args) (csv root : option Path) (w : World) :
  filter is_algorithm (added w (snd (addCKFTracks ext (ckf_with_output b csv root) w)))
  = filter is_algorithm (added w (snd (addCKFTracks ext (ckf_with_output b None None) w))).
Proof.
  destruct b as [tg fld cfg csv0 root0 sel].
  unfold ckf_with_output. ckf_fields.
  pair_runs Hr.
  unfold addCKFTracks in Hr. ckf_fields.
  destruct root as [d|], csv as [c|]; py_exec Hr;
    subst rr; py_goal; added_stages; try added_stages; reflexivity.
Qed.

Lemma addCKFTracks_with_output (ext : Externals) (b : CKF.Args) (w : World) :
  fst (addCKFTracks ext b w) = inr tt ->
  stage_names (filter is_writer (added w (snd (addCKFTracks ext b w))))
  = match CKF.outputDirRoot b with
    | Some _ => ["RootTrajectoryStatesWriter"; "RootTrajectorySummaryWriter";
                 "CKFPerformanceWriter"]
    | None => []
    end
    ++ match CKF.outputDirCsv b with
       | Some _ => ["CsvMultiTrajectoryWriter"]
       | None => []
       end
  /\ (forall d, CKF.outputDirRoot b = Some d \/ CKF.outputDirCsv b = Some d ->
        path_exists (snd (addCKFTracks ext b w)) d = true).
Proof.
  destruct b as [tg fld cfg csv root sel]. ckf_fields.
  remember (addCKFTracks ext _ w) as r eqn:Hr.
  unfold addCKFTracks in Hr. ckf_fields.
  destruct root as [d|], csv as [c|]; py_exec Hr;
    subst r; py_goal; intros Hok; try discriminate Hok;
    (split; [added_stages; reflexivity|]);
    intros d' [Hd|Hd]; inversion Hd; subst; py_goal; fs_facts;
    rewrite ?orb_true_r; reflexivity.
Qed.

(** *** addVertexFitting *)

Lemma addVertexFitting_without_output (a : Vertexing.Args) (w : World) :
  Vertexing.outputDirRoot a = None ->
  filter is_writer (added w (snd (addVertexFitting a w))) = []
  /\ dirs (snd (addVertexFitting a w)) = dirs w.
Proof.
  intros Ho. destruct a as [fld odr ap tp vf ll]. vertexing_fields. subst odr.
  remember (addVertexFitting _ w) as r eqn:Hr.
  unfold addVertexFitting in Hr. vertexing_fields.
  destruct vf as [[]|repr]; py_exec Hr;
    subst r; py_goal; (split; [added_stages|]); reflexivity.
Qed.

Lemma addVertexFitting_algorithms_whatever_output
    (a : Vertexing.Args) (d : Path) (w : World) :
  filter is_algorithm
    (added w (snd (addVertexFitting (vertexing_with_output a (Some d)) w)))
  = filter is_algorithm
      (added w (snd (addVertexFitting (vertexing_with_output a None) w))).
Proof.
  destruct a as [fld odr ap tp vf ll].
  unfold vertexing_with_output. vertexing_fields.
  pair_runs Hr.
  unfold addVertexFitting in Hr. vertexing_fields.
  destruct vf as [[]|repr]; py_exec Hr;
    subst rr; py_goal; added_stages; try added_stages; reflexivity.
Qed.

Lemma addVertexFitting_with_output (a : Vertexing.Args) (d : Path) (w : World) :
  Vertexing.outputDirRoot a = Some d ->
  fst (addVertexFitting a w) = inr tt ->
  stage_names (filter is_writer (added w (snd (addVertexFitting a w))))
  = ["RootVertexPerformanceWriter"]
  /\ path_exists (snd (addVertexFitting a w)) d = true
  /\ (path_exists w d = true -> dirs (snd (addVertexFitting a w)) = dirs w)
  /\ (path_exists w d = false -> dirs (snd (addVertexFitting a w)) = dirs w ++ [d]).
Proof.
  intros Ho. destruct a as [fld odr ap tp vf ll]. vertexing_fields. subst odr.
  remember (addVertexFitting _ w) as r eqn:Hr.
  unfold addVertexFitting in Hr. vertexing_fields.
  destruct vf as [[]|repr]; py_exec Hr;
    subst r; py_goal; intros Hok; try discriminate Hok;
    (split; [added_stages; reflexivity|]);
    (split; [fs_facts; reflexivity|]);
    (split; intros Hp; py_cbn Hp; revert Hp; fs_facts; intros Hp;
       try discriminate Hp; reflexivity).
Qed.

(** C10 (amended).  Without an output directory none of the three helpers
    appends a writer or creates a directory; the algorithm stages do not
    depend on the output directory; with an output directory, a call of
    addCKFTracks, of addVertexFitting, or of addSeeding with a variant other
    than TruthSmeared that returns has made the directory exist (creating it
    when nothing was there) and has appended the writers; addSeeding with
    TruthSmeared appends no writer and creates no directory in either case. *)
Theorem output_directory_controls_writers (ext : Externals) :
  (forall a w, Seeding.outputDirRoot a = None ->
     filter is_writer (added w (snd (addSeeding ext a w))) = []
     /\ dirs (snd (addSeeding ext a w)) = dirs w)
  /\ (forall b w, CKF.outputDirRoot b = None -> CKF.outputDirCsv b = None ->
        filter is_writer (added w (snd (addCKFTracks ext b w))) = []
        /\ dirs (snd (addCKFTracks ext b w)) = dirs w)
  /\ (forall a w, Vertexing.outputDirRoot a = None ->
        filter is_writer (added w (snd (addVertexFitting a w))) = []
        /\ dirs (snd (addVertexFitting a w)) = dirs w)
  /\ (forall a d w,
        filter is_algorithm
          (added w (snd (addSeeding ext (seeding_with_output a (Some d)) w)))
        = filter is_algorithm
            (added w (snd (addSeeding ext (seeding_with_output a None) w))))
  /\ (forall b csv root w,
        filter is_algorithm
          (added w (snd (addCKFTracks ext (ckf_with_output b csv root) w)))
        = filter is_algorithm
            (added w (snd (addCKFTracks ext (ckf_with_output b None None) w))))
  /\ (forall a d w,
        filter is_algorithm
          (added w (snd (addVertexFitting (vertexing_with_output a (Some d)) w)))
        = filter is_algorithm
            (added w (snd (addVertexFitting (vertexing_with_output a None) w))))
  /\ (forall a v d w,
        Seeding.seedingAlgorithm a = Member v -> v <> TruthSmeared ->
        Seeding.outputDirRoot a = Some d ->
        fst (addSeeding ext a w) = inr tt ->
        stage_names (filter is_writer (added w (snd (addSeeding ext a w))))
        = ["TrackFinderPerformanceWriter"; "SeedingPerformanceWriter";
           "RootTrackParameterWriter"]
        /\ path_exists (snd (addSeeding ext a w)) d = true
        /\ (path_exists w d = true -> dirs (snd (addSeeding ext a w)) = dirs w)
        /\ (path_exists w d = false ->
            dirs (snd (addSeeding ext a w)) = dirs w ++ [d]))
  /\ (forall b w,
        fst (addCKFTracks ext b w) = inr tt ->
        stage_names (filter is_writer (added w (snd (addCKFTracks ext b w))))
        = match CKF.outputDirRoot b with
          | Some _ => ["RootTrajectoryStatesWriter"; "RootTrajectorySummaryWriter";
                       "CKFPerformanceWriter"]
          | None => []
          end
          ++ match CKF.outputDirCsv b with
             | Some _ => ["CsvMultiTrajectoryWriter"]
             | None => []
             end
        /\ (forall d, CKF.outputDirRoot b = Some d \/ CKF.outputDirCsv b = Some d ->
              path_exists (snd (addCKFTracks ext b w)) d = true))
  /\ (forall a d w,
        Vertexing.outputDirRoot a = Some d ->
        fst (addVertexFitting a w) = inr tt ->
        stage_names (filter is_writer (added w (snd (addVertexFitting a w))))
        = ["RootVertexPerformanceWriter"]
        /\ path_exists (snd (addVertexFitting a w)) d = true
        /\ (path_exists w d = true -> dirs (snd (addVertexFitting a w)) = dirs w)
        /\ (path_exists w d = false ->
            dirs (snd (addVertexFitting a w)) = dirs w ++ [d]))
  /\ (forall a w,
        Seeding.seedingAlgorithm a = Member TruthSmeared ->
        filter is_writer (added w (snd (addSeeding ext a w))) = []
        /\ dirs (snd (addSeeding ext a w)) = dirs w).
Proof.
  repeat match goal with |- _ /\ _ => split end.
  - intros; now apply addSeeding_without_output.
  - intros; now apply addCKFTracks_without_output.
  - intros; now apply addVertexFitting_without_output.
  - intros; apply addSeeding_algorithms_whatever_output.
  - intros; apply addCKFTracks_algorithms_whatever_output.
  - intros; apply addVertexFitting_algorithms_whatever_output.
  - intros a v d w Hv Hn Ho Hok; now apply (addSeeding_with_output ext a v d w).
  - intros; now apply addCKFTracks_with_output.
  - intros; now apply addVertexFitting_with_output.
  - intros; now apply addSeeding_truth_smeared_no_writers.
Qed.

(** A Default run into a directory that does not exist yet. *)
Lemma output_directory_controls_writers_witness :
  stage_names
    (filter is_writer
       (added empty_world
          (snd (addSeeding quiet_externals
                  (seeding_args (Member Default) (Some ["out"])) empty_world))))
  = ["TrackFinderPerformanceWriter"; "SeedingPerformanceWriter";
     "RootTrackParameterWriter"]
  /\ dirs (snd (addSeeding quiet_externals
                  (seeding_args (Member Default) (Some ["out"])) empty_world))
     = [["out"]].
Proof.
  destruct (output_directory_controls_writers quiet_externals)
    as (_ & _ & _ & _ & _ & _ & H & _).
  destruct (H (seeding_args (Member Default) (Some ["out"])) Default ["out"]
              empty_world) as (Hn & _ & _ & Hd).
  - reflexivity.
  - discriminate.
  - reflexivity.
  - reflexivity.
  - split; [exact Hn | apply Hd; reflexivity].
Defined.

(** The claim as stated fails for TruthSmeared: the call returns, and with
    an output directory given it has neither created the directory nor
    appended a writer. *)
Lemma truth_smeared_output_directory_unused :
  fst (addSeeding quiet_externals
         (seeding_args (Member TruthSmeared) (Some ["out"])) empty_world)
  = inr tt
  /\ filter is_writer
       (added empty_world
          (snd (addSeeding quiet_externals
                  (seeding_args (Member TruthSmeared) (Some ["out"])) empty_world)))
     = []
  /\ path_exists
       (snd (addSeeding quiet_externals
               (seeding_args (Member TruthSmeared) (Some ["out"])) empty_world))
       ["out"]
     = false.
Proof. repeat split; vm_compute; reflexivity. Qed.

(** ** One branch per call, one sequencer per variant *)

Ltac branch_names :=
  match goal with
  | |- forall v', _ <-> _ =>
      intros v'; destruct v';
      (split;
       [ intros Hin; vm_compute in Hin;
         repeat (destruct Hin as [Hin|Hin]; try discriminate Hin);
         try reflexivity; try contradiction
       | intros Hv; try discriminate Hv; vm_compute; tauto ])
  end.

Lemma addSeeding_one_branch
    (ext : Externals) (a : Seeding.Args) (v : SeedingAlgorithm) (w : World) :
  Seeding.seedingAlgorithm a = Member v ->
  fst (addSeeding ext a w) = inr tt ->
  forall v',
    In (seeding_branch_stage v') (stage_names (added w (snd (addSeeding ext a w))))
    <-> v' = v.
Proof.
  intros Hv. destruct a as [tg fld geo alg tsr pss ivi sfc tpe ip odr ll rnd].
  seeding_fields. subst alg.
  remember (addSeeding ext _ w) as r eqn:Hr.
  unfold addSeeding in Hr. seeding_fields.
  destruct v, tsr as [tsr|], odr as [d|]; py_exec Hr;
    subst r; py_goal; intros Hok; try discriminate Hok;
    added_stages; branch_names.
Qed.

Lemma addVertexFitting_one_branch
    (a : Vertexing.Args) (v : VertexFinder) (w : World) :
  Vertexing.vertexFinder a = Member v ->
  fst (addVertexFitting a w) = inr tt ->
  forall v',
    In (vertexing_branch_stage v')
       (stage_names (added w (snd (addVertexFitting a w))))
    <-> v' = v.
Proof.
  intros Hv. destruct a as [fld odr ap tp vf ll]. vertexing_fields. subst vf.
  remember (addVertexFitting _ w) as r eqn:Hr.
  unfold addVertexFitting in Hr. vertexing_fields.
  destruct v, odr as [d|]; py_exec Hr;
    subst r; py_goal; intros Hok; try discriminate Hok;
    added_stages; branch_names.
Qed.

Lemma scripts_assemble_fresh
    (events skip : Z) (outdir : Path) (mktemp : nat -> Path)
    (material_recording tmp_path : Path) (name : string) (sc : Scripts.Script unit) :
  In (name, sc)
     (Scripts.run_scripts events skip outdir mktemp material_recording tmp_path) ->
  Scripts.assembled_fresh [] (Scripts.trace_of sc) = true.
Proof.
  unfold Scripts.run_scripts, Scripts.sequencer_tests. cbn [In].
  intros H.
  repeat (destruct H as [H|H]; [inversion H; subst; reflexivity|]).
  contradiction.
Qed.

(** C5.  A call of addSeeding (addVertexFitting) that returns has added the
    stage of the selected branch of its if/elif chain and of no other
    branch; every run script hands each assembling call a sequencer to which
    nothing was added before, and the variant loop of physmon.py uses three
    different sequencers for its three variants. *)
Theorem one_branch_per_call_one_sequencer_per_variant (ext : Externals) :
  (forall a v w,
      Seeding.seedingAlgorithm a = Member v ->
      fst (addSeeding ext a w) = inr tt ->
      forall v',
        In (seeding_branch_stage v')
           (stage_names (added w (snd (addSeeding ext a w))))
        <-> v' = v)
  /\ (forall a v w,
        Vertexing.vertexFinder a = Member v ->
        fst (addVertexFitting a w) = inr tt ->
        forall v',
          In (vertexing_branch_stage v')
             (stage_names (added w (snd (addVertexFitting a w))))
          <-> v' = v)
  /\ (forall events skip outdir mktemp material_recording tmp_path name sc,
        In (name, sc)
           (Scripts.run_scripts events skip outdir mktemp material_recording
              tmp_path) ->
        Scripts.assembled_fresh [] (Scripts.trace_of sc) = true)
  /\ (forall events skip outdir mktemp,
        Scripts.ckf_variants
          (Scripts.trace_of (Scripts.physmon events skip outdir mktemp))
        = [(1%nat, VBool true, VBool false); (2%nat, VBool false, VBool true);
           (3%nat, VBool false, VBool false)]).
Proof.
  repeat match goal with |- _ /\ _ => split end.
  - intros a v w; apply addSeeding_one_branch.
  - intros a v w; apply addVertexFitting_one_branch.
  - apply scripts_assemble_fresh.
  - reflexivity.
Qed.

(** The TruthEstimated variant adds the truth track finder and neither
    particle smearing nor a seeding algorithm. *)
Lemma one_branch_per_call_one_sequencer_per_variant_witness :
  In "TruthTrackFinder"
     (stage_names
        (added empty_world
           (snd (addSeeding quiet_externals
                   (seeding_args (Member TruthEstimated) None) empty_world))))
  /\ ~ In "ParticleSmearing"
       (stage_names
          (added empty_world
             (snd (addSeeding quiet_externals
                     (seeding_args (Member TruthEstimated) None) empty_world))))
  /\ ~ In "SeedingAlgorithm"
       (stage_names
          (added empty_world
             (snd (addSeeding quiet_externals
                     (seeding_args (Member TruthEstimated) None) empty_world)))).
Proof.
  destruct (one_branch_per_call_one_sequencer_per_variant quiet_externals)
    as (H & _).
  pose proof (H (seeding_args (Member TruthEstimated) None) TruthEstimated
                empty_world eq_refl eq_refl) as Hb.
  split; [|split].
  - apply (Hb TruthEstimated). reflexivity.
  - intros Hin. apply (Hb TruthSmeared) in Hin. discriminate Hin.
  - intros Hin. apply (Hb Default) in Hin. discriminate Hin.
Defined.

(** ** Dependency order *)

Lemma In_requiredInputs k st :
  In k (requiredInputs st) ->
  nonempty k = true /\ In k (map snd (inputs (comp st))).
Proof.
  unfold requiredInputs. rewrite filter_In. tauto.
Qed.

Lemma available_app_l l r k : available l k -> available (l ++ r) k.
Proof.
  intros [p [Hp Hk]]. exists p. split; auto. apply in_or_app; auto.
Qed.

Lemma available_app_r l r k :
  In k (flat_map producedOutputs r) -> available (l ++ r) k.
Proof.
  rewrite in_flat_map. intros [p [Hp Hk]]. exists p. split; auto.
  apply in_or_app; auto.
Qed.

Lemma app_eq_same_length {A} (a b c d : list A) :
  a ++ b = c ++ d -> length a = length c -> a = c /\ b = d.
Proof.
  revert c. induction a as [|x a IH]; intros [|y c] H Hl; simpl in *;
    try discriminate; auto.
  injection H as -> H. destruct (IH c H) as [-> ->]; auto.
Qed.

Lemma ordered_after_split new : forall before,
  ordered_after before new ->
  forall pre st post,
    before ++ new = pre ++ st :: post ->
    (length before <= length pre)%nat ->
    supplied pre st.
Proof.
  induction new as [|x r IH]; intros before Hord pre st post Heq Hlen.
  - rewrite app_nil_r in Heq. subst before.
    rewrite length_app in Hlen. simpl in Hlen. lia.
  - destruct Hord as [Hx Hr].
    destruct (Nat.eq_dec (length before) (length pre)) as [He|Hne].
    + destruct (app_eq_same_length _ _ _ _ Heq He) as [-> Hhd].
      injection Hhd as -> _. exact Hx.
    + apply (IH (before ++ [x]) Hr pre st post).
      * rewrite <- app_assoc. exact Heq.
      * rewrite length_app. simpl. lia.
Qed.

Lemma dependency_ordered_app before new :
  dependency_ordered before ->
  ordered_after before new ->
  dependency_ordered (before ++ new).
Proof.
  intros Hb Hn pre st post Heq.
  destruct (le_lt_dec (length before) (length pre)) as [Hle|Hlt].
  - eapply ordered_after_split; eauto.
  - apply app_eq_app in Heq. destruct Heq as [l [[H1 H2]|[H1 H2]]].
    + destruct l as [|y l].
      * rewrite app_nil_r in H1. subst. lia.
      * simpl in H2. injection H2 as Hst Hpost. subst y.
        apply (Hb pre st l). exact H1.
    + subst pre. rewrite length_app in Hlt. lia.
Qed.

Ltac supplied_stage Hup :=
  let k := fresh "k" in
  let Hk := fresh "Hk" in
  let Hne := fresh "Hne" in
  repeat rewrite <- app_assoc; cbn [app];
  intros k Hk; apply In_requiredInputs in Hk; destruct Hk as [Hne Hk];
  vm_compute in Hk;
  repeat (destruct Hk as [Hk|Hk];
          [ subst k;
            first [ discriminate Hne
                  | apply available_app_r; vm_compute; tauto
                  | apply available_app_l; apply Hup; vm_compute; tauto
                  | rewrite <- (app_nil_r (stages _));
                    apply available_app_l; apply Hup; vm_compute; tauto ]
          | ]);
  try contradiction.

Lemma available_iff (before : list Stage) (k : string) :
  available before k <-> In k (flat_map producedOutputs before).
Proof.
  unfold available. rewrite in_flat_map. tauto.
Qed.

Lemma has_key_In k l : Validator.has_key k l = true <-> In k l.
Proof.
  unfold Validator.has_key. rewrite existsb_exists. split.
  - intros [x [Hx He]]. apply String.eqb_eq in He. subst. exact Hx.
  - intros H. exists k. split; auto. apply String.eqb_refl.
Qed.

Lemma check_dependencies_None l : forall before,
  Validator.check_dependencies (flat_map producedOutputs before) l = None
  <-> ordered_after before l.
Proof.
  induction l as [|st r IH]; intros before; simpl.
  - tauto.
  - destruct (find _ (requiredInputs st)) as [k|] eqn:Hf.
    + split; [discriminate|]. intros [Hs _].
      apply find_some in Hf. destruct Hf as [Hin Hk].
      apply Hs, available_iff, has_key_In in Hin.
      rewrite Hin in Hk. discriminate.
    + rewrite <- (IH (before ++ [st])).
      rewrite flat_map_app. simpl. rewrite app_nil_r.
      split; [|tauto].
      intros H. split; [|exact H].
      intros k Hin. apply available_iff, has_key_In.
      pose proof (find_none _ _ Hf k Hin) as Hn. simpl in Hn.
      destruct (Validator.has_key k (flat_map producedOutputs before));
        [reflexivity | discriminate Hn].
Qed.

Lemma check_dependencies_Some l : forall avail e,
  Validator.check_dependencies avail l = Some e ->
  exists st k, e = Validator.UnsatisfiedDependency st k.
Proof.
  induction l as [|st r IH]; intros avail e; simpl.
  - discriminate.
  - destruct (find _ (requiredInputs st)) as [k|].
    + intros [= <-]. eauto.
    + apply IH.
Qed.

Lemma check_unique_Some l : forall seen e,
  Validator.check_unique seen l = Some e ->
  exists k f s, e = Validator.DuplicateProduct k f s.
Proof.
  induction l as [|st r IH]; intros seen e; simpl.
  - discriminate.
  - destruct (find _ (producedOutputs st)) as [k|].
    + intros [= <-]. eauto.
    + apply IH.
Qed.

Lemma dependency_ordered_nil : dependency_ordered [].
Proof. intros [|x pre] st post H; discriminate H. Qed.

Lemma ordered_after_of_dependency_ordered new : forall before,
  dependency_ordered (before ++ new) -> ordered_after before new.
Proof.
  induction new as [|x r IH]; intros before Hord; simpl; auto.
  split.
  - apply (Hord before x r). reflexivity.
  - apply IH. rewrite <- app_assoc. exact Hord.
Qed.

(** The validator of the specification accepts the dependency order of a
    stage list exactly when the list is dependency ordered. *)
Lemma build_checks_dependencies P :
  (dependency_ordered P <->
   forall st k, Validator.build P <> inl (Validator.UnsatisfiedDependency st k))
  /\ (dependency_ordered P \/
      exists st k, Validator.build P = inl (Validator.UnsatisfiedDependency st k)).
Proof.
  unfold Validator.build.
  destruct (Validator.check_dependencies [] P) as [e|] eqn:Hc.
  - destruct (check_dependencies_Some _ _ _ Hc) as [st [k ->]].
    split; [|right; eauto].
    split.
    + intros Hord. exfalso.
      apply (ordered_after_of_dependency_ordered P []) in Hord.
      apply check_dependencies_None in Hord. simpl in Hord. congruence.
    + intros H. exfalso. apply (H st k). reflexivity.
  - assert (Hord : dependency_ordered P).
    { change P with ([] ++ P). apply dependency_ordered_app.
      - apply dependency_ordered_nil.
      - apply (check_dependencies_None P []). exact Hc. }
    split; [|left; exact Hord].
    split; auto. intros _ st k.
    destruct (Validator.check_unique [] P) as [e|] eqn:Hu.
    + destruct (check_unique_Some _ _ _ Hu) as (k' & f & s' & ->). discriminate.
    + discriminate.
Qed.

Lemma addSeeding_extends (ext : Externals) (a : Seeding.Args) (w : World) :
  stages (seq (snd (addSeeding ext a w)))
  = stages (seq w) ++ added w (snd (addSeeding ext a w)).
Proof.
  destruct a as [tg fld geo alg tsr pss ivi sfc tpe ip odr ll rnd].
  remember (addSeeding ext _ w) as r eqn:Hr.
  unfold addSeeding in Hr. seeding_fields.
  destruct alg as [[]|repr], tsr as [tsr|], odr as [d|]; py_exec Hr;
    subst r; py_goal; added_stages;
    first [ rewrite <- ?app_assoc; reflexivity | symmetry; apply app_nil_r ].
Qed.

Lemma addVertexFitting_extends (a : Vertexing.Args) (w : World) :
  stages (seq (snd (addVertexFitting a w)))
  = stages (seq w) ++ added w (snd (addVertexFitting a w)).
Proof.
  destruct a as [fld odr ap tp vf ll].
  remember (addVertexFitting _ w) as r eqn:Hr.
  unfold addVertexFitting in Hr. vertexing_fields.
  destruct vf as [[]|repr], odr as [d|]; py_exec Hr;
    subst r; py_goal; added_stages;
    first [ rewrite <- ?app_assoc; reflexivity | symmetry; apply app_nil_r ].
Qed.

Lemma addSeeding_ordered_after
    (ext : Externals) (a : Seeding.Args) (v : SeedingAlgorithm) (w : World) :
  Seeding.seedingAlgorithm a = Member v ->
  fst (addSeeding ext a w) = inr tt ->
  (forall k, In k (seeding_upstream a) -> available (stages (seq w)) k) ->
  ordered_after (stages (seq w)) (added w (snd (addSeeding ext a w))).
Proof.
  intros Hv. destruct a as [tg fld geo alg tsr pss ivi sfc tpe ip odr ll rnd].
  seeding_fields. subst alg. unfold seeding_upstream. seeding_fields.
  remember (addSeeding ext _ w) as r eqn:Hr.
  unfold addSeeding in Hr. seeding_fields.
  destruct v, tsr as [tsr|], odr as [d|]; py_exec Hr;
    subst r; py_goal; intros Hok; try discriminate Hok; intros Hup;
    added_stages; cbn [ordered_after];
    repeat split; supplied_stage Hup.
Qed.

Lemma addVertexFitting_ordered_after
    (a : Vertexing.Args) (v : VertexFinder) (w : World) :
  Vertexing.vertexFinder a = Member v ->
  fst (addVertexFitting a w) = inr tt ->
  (forall k, In k (vertexing_upstream a) -> available (stages (seq w)) k) ->
  ordered_after (stages (seq w)) (added w (snd (addVertexFitting a w))).
Proof.
  intros Hv. destruct a as [fld odr ap tp vf ll]. vertexing_fields. subst vf.
  unfold vertexing_upstream. vertexing_fields.
  remember (addVertexFitting _ w) as r eqn:Hr.
  unfold addVertexFitting in Hr. vertexing_fields.
  destruct v, odr as [d|]; py_exec Hr;
    subst r; py_goal; intros Hok; try discriminate Hok; intros Hup;
    added_stages; cbn [ordered_after];
    repeat split; supplied_stage Hup.
Qed.

(** C2.  The validator of the specification either finds every required
    input of every stage among the outputs of the stages before it, or fails
    with UnsatisfiedDependency; and a call of addSeeding or addVertexFitting
    that returns keeps the sequencer dependency ordered: each stage it adds
    comes after a stage producing each of its non-empty input keys, the keys
    expected from the stages added before the call included. *)
Theorem required_inputs_produced_before (ext : Externals) :
  (forall P,
      dependency_ordered P
      \/ exists st k,
           Validator.build P = inl (Validator.UnsatisfiedDependency st k))
  /\ (forall a v w,
        Seeding.seedingAlgorithm a = Member v ->
        fst (addSeeding ext a w) = inr tt ->
        (forall k, In k (seeding_upstream a) -> available (stages (seq w)) k) ->
        dependency_ordered (stages (seq w)) ->
        dependency_ordered (stages (seq (snd (addSeeding ext a w)))))
  /\ (forall a v w,
        Vertexing.vertexFinder a = Member v ->
        fst (addVertexFitting a w) = inr tt ->
        (forall k, In k (vertexing_upstream a) -> available (stages (seq w)) k) ->
        dependency_ordered (stages (seq w)) ->
        dependency_ordered (stages (seq (snd (addVertexFitting a w))))).
Proof.
  split; [|split].
  - intros P. apply build_checks_dependencies.
  - intros a v w Hv Hok Hup Hord. rewrite addSeeding_extends.
    apply dependency_ordered_app; auto.
    now apply (addSeeding_ordered_after ext a v w).
  - intros a v w Hv Hok Hup Hord. rewrite addVertexFitting_extends.
    apply dependency_ordered_app; auto.
    now apply (addVertexFitting_ordered_after a v w).
Qed.

Lemma dependency_ordered_single (st : Stage) :
  requiredInputs st = [] -> dependency_ordered [st].
Proof.
  intros Hreq pre st' post Heq.
  destruct pre as [|x [|y pre]]; simpl in Heq; try discriminate Heq.
  injection Heq as -> _. intros k Hk. rewrite Hreq in Hk. contradiction.
Qed.

(** A Default run with writers, after a stage that supplies the keys of
    simulation and digitization. *)
Lemma required_inputs_produced_before_witness :
  dependency_ordered
    (stages
       (seq (snd (addSeeding quiet_externals
                    (seeding_args (Member Default) (Some ["out"]))
                    (world_after
                       (seeding_upstream
                          (seeding_args (Member Default) (Some ["out"])))))))).
Proof.
  destruct (required_inputs_produced_before quiet_externals) as (_ & H & _).
  apply (H (seeding_args (Member Default) (Some ["out"])) Default).
  - reflexivity.
  - vm_compute. reflexivity.
  - intros k Hk.
    exists (upstream_stage
              (seeding_upstream (seeding_args (Member Default) (Some ["out"])))).
    split; [left; reflexivity|].
    vm_compute in Hk |- *. exact Hk.
  - apply dependency_ordered_single. reflexivity.
Defined.

(** ** The run scripts *)

Lemma physmon_trace (events skip : Z) (outdir : Path) (mktemp : nat -> Path) :
  Scripts.trace_of (Scripts.physmon events skip outdir mktemp)
  = [ Scripts.Mkdir outdir;
      Scripts.Construct 0 (Some events) (Some (-1)%Z);
      Scripts.Assemble 0 "runTruthTracking"
        [VRef "trackingGeometry"; VRef "field"]
        [("digiConfigFile", VRef "digiConfig"); ("outputDir", VPath (mktemp 0%nat))];
      Scripts.Run 0;
      Scripts.Destroy 0;
      Scripts.Inspect "exists" (mktemp 0%nat ++ ["performance_track_fitter.root"]);
      Scripts.External "shutil.copy" ]
    ++ flat_map
         (fun '(id, truthSmeared, truthEstimated) =>
            [ Scripts.Construct id (Some events) (Some 1%Z);
              Scripts.Assemble id "runCKFTracks" [VRef "trackingGeometry"]
                [("decorators", VRef "decorators");
                 ("field", VRef "field");
                 ("digiConfigFile", VRef "digiConfig");
                 ("geometrySelection", VRef "geoSel");
                 ("outputDir", VPath (mktemp id));
                 ("outputCsv", VBool false);
                 ("truthSmearedSeeded", VBool truthSmeared);
                 ("truthEstimatedSeeded", VBool truthEstimated)];
              Scripts.Run id;
              Scripts.Destroy id;
              Scripts.Inspect "exists" (mktemp id ++ ["performance_ckf.root"]);
              Scripts.External "shutil.copy" ]
            ++ (if negb truthSmeared && negb truthEstimated
                then [Scripts.External "ActsAnalysisResidualsAndPulls"] else []))
         [ (1%nat, true, false); (2%nat, false, true); (3%nat, false, false) ].
Proof. reflexivity. Qed.

(** C6.  The first run of physmon.py assembles a pipeline with digitization
    ([runTruthTracking] with a digitization configuration) on a sequencer
    constructed with [numThreads=-1]; only the three CKF runs use
    [numThreads=1].  test_digitization_example and
    test_digitization_example_input run digitization with [numThreads=-1]
    too. *)
Theorem digitization_runs_not_all_single_threaded
    (events skip : Z) (outdir : Path) (mktemp : nat -> Path) (tmp_path : Path) :
  Scripts.digitization_run_threads
    (Scripts.trace_of (Scripts.physmon events skip outdir mktemp))
  = [Some (-1)%Z; Some 1%Z; Some 1%Z; Some 1%Z]
  /\ Scripts.digitization_single_threaded
       (Scripts.trace_of (Scripts.physmon events skip outdir mktemp)) = false
  /\ Scripts.digitization_run_threads
       (Scripts.trace_of (Scripts.test_digitization_example tmp_path))
     = [Some (-1)%Z]
  /\ Scripts.digitization_run_threads
       (Scripts.trace_of (Scripts.test_digitization_example_input tmp_path))
     = [Some (-1)%Z]
  /\ Scripts.digitization_run_threads
       (Scripts.trace_of (Scripts.test_ckf_tracks_example_full_seeding tmp_path))
     = [Some 1%Z].
Proof. repeat split; reflexivity. Qed.

(** The scripts that look at the output while the sequencer is alive. *)
Lemma scripts_inspecting_alive
    (material_recording tmp_path : Path) :
  Scripts.del_before_inspection
    (Scripts.trace_of (Scripts.test_propagation tmp_path)) = false
  /\ Scripts.del_before_inspection
       (Scripts.trace_of (Scripts.test_particle_gun tmp_path)) = false
  /\ Scripts.del_before_inspection
       (Scripts.trace_of (Scripts.test_material_mapping material_recording tmp_path))
     = false
  /\ Scripts.del_before_inspection
       (Scripts.trace_of (Scripts.test_digitization_example tmp_path)) = false
  /\ Scripts.del_before_inspection
       (Scripts.trace_of (Scripts.test_digitization_example_input tmp_path))
     = false.
Proof. repeat split; reflexivity. Qed.

(** C7 (amended).  physmon.py, test_fatras, test_seeding and the three
    test_ckf_tracks_example tests delete the sequencer after the run and
    before they inspect any output: at every inspection no sequencer that
    has run is still alive.  test_propagation, test_particle_gun,
    test_material_mapping (in its validation run), test_digitization_example
    and test_digitization_example_input inspect output while the sequencer
    that wrote it is alive. *)
Theorem sequencer_deleted_before_inspection
    (events skip : Z) (outdir : Path) (mktemp : nat -> Path)
    (material_recording tmp_path : Path) :
  (forall name sc,
      In (name, sc)
         (Scripts.run_scripts events skip outdir mktemp material_recording
            tmp_path) ->
      In name Scripts.deleting_scripts ->
      Scripts.del_before_inspection (Scripts.trace_of sc) = true)
  /\ Scripts.del_before_inspection
       (Scripts.trace_of (Scripts.test_propagation tmp_path)) = false
  /\ Scripts.del_before_inspection
       (Scripts.trace_of (Scripts.test_particle_gun tmp_path)) = false
  /\ Scripts.del_before_inspection
       (Scripts.trace_of (Scripts.test_material_mapping material_recording tmp_path))
     = false
  /\ Scripts.del_before_inspection
       (Scripts.trace_of (Scripts.test_digitization_example tmp_path)) = false
  /\ Scripts.del_before_inspection
       (Scripts.trace_of (Scripts.test_digitization_example_input tmp_path))
     = false.
Proof.
  split; [|apply scripts_inspecting_alive].
  unfold Scripts.run_scripts, Scripts.sequencer_tests, Scripts.deleting_scripts.
  cbn [In]. intros name sc H Hd.
  repeat (destruct H as [H|H];
          [ inversion H; subst;
            first [ reflexivity
                  | exfalso;
                    repeat (destruct Hd as [Hd|Hd]; [discriminate Hd|]);
                    contradiction ]
          | ]).
  contradiction.
Qed.

Lemma sequencer_deleted_before_inspection_witness :
  Scripts.del_before_inspection
    (Scripts.trace_of
       (Scripts.test_ckf_tracks_example_full_seeding ["tmp"])) = true.
Proof.
  apply (proj1 (sequencer_deleted_before_inspection 10%Z 0%Z ["outdir"]
                  (fun n => ["temp"]) ["material"] ["tmp"])
           "test_ckf_tracks_example_full_seeding").
  - unfold Scripts.run_scripts, Scripts.sequencer_tests. cbn [In].
    do 9 right. left. reflexivity.
  - unfold Scripts.deleting_scripts. cbn [In]. do 3 right. left. reflexivity.
Defined.

(** The claim as stated fails: test_particle_gun asserts that its output
    files exist right after the run, the sequencer never being deleted. *)
Lemma test_particle_gun_inspects_without_del :
  In ("test_particle_gun", Scripts.test_particle_gun ["tmp"])
     (Scripts.run_scripts 10%Z 0%Z ["outdir"] (fun n => ["temp"]) ["material"]
        ["tmp"])
  /\ Scripts.del_before_inspection
       (Scripts.trace_of (Scripts.test_particle_gun ["tmp"])) = false
  /\ Scripts.trace_of (Scripts.test_particle_gun ["tmp"])
     = [ Scripts.Construct 0 (Some 20%Z) (Some (-1)%Z);
         Scripts.AssertAbsent ["tmp"; "csv"];
         Scripts.AssertAbsent ["tmp"; "particles.root"];
         Scripts.Assemble 0 "runParticleGun" [VPath ["tmp"]] [];
         Scripts.Run 0;
         Scripts.Inspect "exists" ["tmp"; "csv"];
         Scripts.Inspect "exists" ["tmp"; "particles.root"];
         Scripts.Inspect "iterdir" ["tmp"; "csv"];
         Scripts.Inspect "iterdir" ["tmp"; "csv"];
         Scripts.Inspect "stat" ["tmp"; "particles.root"];
         Scripts.Inspect "TFile.Open" ["tmp"; "particles.root"];
         Scripts.Inspect "hash" ["tmp"; "particles.root"] ].
Proof.
  split; [|split; reflexivity].
  unfold Scripts.run_scripts, Scripts.sequencer_tests. cbn [In].
  do 5 right. left. reflexivity.
Qed.

(** * Further properties of the helpers *)

(** ** A call only appends *)

Lemma grows_refl w : grows w w.
Proof.
  repeat split; try (exists []; symmetry; apply app_nil_r); auto.
Qed.

Lemma grows_trans w1 w2 w3 : grows w1 w2 -> grows w2 w3 -> grows w1 w3.
Proof.
  intros ([n1 H1] & C1 & F1 & [d1 D1] & [l1 L1] & U1)
         ([n2 H2] & C2 & F2 & [d2 D2] & [l2 L2] & U2).
  repeat split.
  - exists (n1 ++ n2). rewrite H2, H1, app_assoc. reflexivity.
  - congruence.
  - congruence.
  - exists (d1 ++ d2). rewrite D2, D1, app_assoc. reflexivity.
  - exists (l1 ++ l2). rewrite L2, L1, app_assoc. reflexivity.
  - lia.
Qed.

Ltac grows_tac :=
  unfold grows; simpl; repeat split;
  first [ reflexivity | eexists; reflexivity
        | exists []; symmetry; apply app_nil_r | lia ].

Lemma only_appends_ret {A} (a : A) : only_appends (ret a).
Proof. intros w. apply grows_refl. Qed.

Lemma only_appends_raise {A} e : only_appends (@raise A e).
Proof. intros w. apply grows_refl. Qed.

Lemma only_appends_bind {A B} (m : M A) (k : A -> M B) :
  only_appends m -> (forall a, only_appends (k a)) -> only_appends (bind m k).
Proof.
  intros Hm Hk w. unfold bind. specialize (Hm w).
  destruct (m w) as [[e|a] w']; simpl in *; auto.
  eapply grows_trans; eauto. apply Hk.
Qed.

Lemma only_appends_get_seq : only_appends get_seq.
Proof. intros w. apply grows_refl. Qed.

Lemma only_appends_addAlgorithm c : only_appends (addAlgorithm c).
Proof. intros w. unfold addAlgorithm, set_stages; simpl. grows_tac. Qed.

Lemma only_appends_addWriter c : only_appends (addWriter c).
Proof. intros w. unfold addWriter, set_stages; simpl. grows_tac. Qed.

Lemma only_appends_dump : only_appends dump_args_calls.
Proof. intros w. unfold dump_args_calls; simpl. grows_tac. Qed.

Lemma only_appends_log ext n l m : only_appends (log ext n l m).
Proof. intros w. unfold log. destruct (logRaises ext l); simpl; grows_tac. Qed.

Lemma only_appends_warn m : only_appends (warn m).
Proof. intros w. unfold warn; simpl. grows_tac. Qed.

Lemma only_appends_load_local {A} n (v : option A) : only_appends (load_local n v).
Proof. destruct v; simpl; [apply only_appends_ret | apply only_appends_raise]. Qed.

Lemma only_appends_load_global n : only_appends (load_global n).
Proof.
  unfold load_global. destruct (existsb _ _);
    [apply only_appends_ret | apply only_appends_raise].
Qed.

Lemma only_appends_lift_result {A} (r : Exc + A) : only_appends (lift_result r).
Proof. destruct r; simpl; [apply only_appends_raise | apply only_appends_ret]. Qed.

Lemma only_appends_ensure_dir p : only_appends (ensure_dir p).
Proof.
  intros w. unfold ensure_dir, mkdir.
  destruct (path_exists w p); [apply grows_refl|].
  destruct (is_dir w (removelast p)); simpl.
  - grows_tac.
  - destruct (mem_path _ _); apply grows_refl.
Qed.

(** Go through the body of a helper, one statement at a time. *)
Ltac only_appends_step :=
  first
    [ apply only_appends_bind; [|intros ?]
    | apply only_appends_ret
    | apply only_appends_raise
    | apply only_appends_get_seq
    | apply only_appends_addAlgorithm
    | apply only_appends_addWriter
    | apply only_appends_dump
    | apply only_appends_log
    | apply only_appends_warn
    | apply only_appends_load_local
    | apply only_appends_load_global
    | apply only_appends_lift_result
    | apply only_appends_ensure_dir
    | match goal with
      | |- only_appends (if ?b then _ else _) => destruct b
      | |- only_appends (match ?x with _ => _ end) => destruct x
      end ].

Lemma addSeeding_only_appends ext a : only_appends (addSeeding ext a).
Proof. unfold addSeeding. cbv zeta. repeat only_appends_step. Qed.

Lemma addCKFTracks_only_appends ext b : only_appends (addCKFTracks ext b).
Proof. unfold addCKFTracks. cbv zeta. repeat only_appends_step. Qed.

Lemma addVertexFitting_only_appends a : only_appends (addVertexFitting a).
Proof. unfold addVertexFitting. cbv zeta. repeat only_appends_step. Qed.

Lemma addKalmanTracks_only_appends tg f d thr :
  only_appends (addKalmanTracks tg f d thr).
Proof. unfold addKalmanTracks. cbv zeta. repeat only_appends_step. Qed.

Lemma addTruthTrackingGsf_only_appends tg f :
  only_appends (addTruthTrackingGsf tg f).
Proof. unfold addTruthTrackingGsf. cbv zeta. repeat only_appends_step. Qed.

Lemma addExaTrkx_only_appends ext mev tg gs onnx odr :
  only_appends (addExaTrkx ext mev tg gs onnx odr).
Proof. unfold addExaTrkx. cbv zeta. repeat only_appends_step. Qed.

(** X1: whatever its arguments and whether it returns or raises, each of the
    six helpers leaves the stages that were on the sequencer in place and in
    order and only appends to them; it does not change the sequencer
    configuration or the set of files, removes no directory and no log
    record, and does not lower the count of argument dumps. *)
Theorem helpers_only_append (ext : Externals) (a : Seeding.Args) (b : CKF.Args)
    (c : Vertexing.Args) (trackingGeometry field : Value) (directNavigation : bool)
    (threshold MeV : Q) (geometrySelection onnxModelDir : Path)
    (outputDirRoot : option Path) :
  only_appends (addSeeding ext a)
  /\ only_appends (addKalmanTracks trackingGeometry field directNavigation threshold)
  /\ only_appends (addTruthTrackingGsf trackingGeometry field)
  /\ only_appends (addCKFTracks ext b)
  /\ only_appends
       (addExaTrkx ext MeV trackingGeometry geometrySelection onnxModelDir
          outputDirRoot)
  /\ only_appends (addVertexFitting c).
Proof.
  split; [apply addSeeding_only_appends|].
  split; [apply addKalmanTracks_only_appends|].
  split; [apply addTruthTrackingGsf_only_appends|].
  split; [apply addCKFTracks_only_appends|].
  split; [apply addExaTrkx_only_appends | apply addVertexFitting_only_appends].
Qed.

(** ** Log levels and the argument dump *)

Lemma level_max_above_DEBUG (l : Level) :
  (level_value (level_max INFO l) <=? level_value DEBUG)%Z = false.
Proof. destruct l; reflexivity. Qed.

Lemma level_max_ge (c l : Level) :
  (level_value l <= level_value (level_max c l))%Z
  /\ (level_value c <= level_value (level_max c l))%Z.
Proof. destruct c, l; cbn; lia. Qed.

Lemma addSeeding_dump ext a w :
  dumped (snd (addSeeding ext a w))
  = (dumped w + dump_count (seq w) (Seeding.logLevel a))%nat.
Proof.
  destruct a as [tg fld geo alg tsr pss ivi sfc tpe ip odr ll rnd].
  seeding_fields. unfold dump_count.
  remember (addSeeding ext _ w) as r eqn:Hr.
  unfold addSeeding in Hr. seeding_fields.
  destruct ll as [l|]; cbn [customLogLevel] in Hr;
    rewrite ?level_max_above_DEBUG in Hr;
    destruct alg as [[]|repr], tsr as [tsr|], odr as [d|]; py_exec Hr;
    subst r; py_goal; lia.
Qed.

Lemma addVertexFitting_dump a w :
  dumped (snd (addVertexFitting a w))
  = (dumped w + dump_count (seq w) (Vertexing.logLevel a))%nat.
Proof.
  destruct a as [fld odr ap tp vf ll]. vertexing_fields. unfold dump_count.
  remember (addVertexFitting _ w) as r eqn:Hr.
  unfold addVertexFitting in Hr. vertexing_fields.
  destruct ll as [l|]; cbn [customLogLevel] in Hr;
    rewrite ?level_max_above_DEBUG in Hr;
    destruct vf as [[]|repr], odr as [d|]; py_exec Hr;
    subst r; py_goal; lia.
Qed.

Lemma addCKFTracks_dump ext b w :
  dumped (snd (addCKFTracks ext b w))
  = (dumped w + dump_count (seq w) None)%nat.
Proof.
  destruct b as [tg fld cfg csv root sel]. unfold dump_count.
  remember (addCKFTracks ext _ w) as r eqn:Hr.
  unfold addCKFTracks in Hr. ckf_fields.
  destruct root as [d|], csv as [c|]; py_exec Hr; subst r; py_goal; lia.
Qed.

(** X2: addSeeding and addVertexFitting dump their arguments exactly once
    when no [logLevel] is passed and the sequencer's level is DEBUG or
    lower, and never when a [logLevel] is passed, be it VERBOSE: the test
    is on [customLogLevel()], which is then at least INFO.  addCKFTracks
    tests the sequencer's level only.  This holds whether the call returns
    or raises. *)
Theorem argument_dump_count (ext : Externals) (a : Seeding.Args) (b : CKF.Args)
    (c : Vertexing.Args) (w : World) :
  dumped (snd (addSeeding ext a w))
  = (dumped w + dump_count (seq w) (Seeding.logLevel a))%nat
  /\ dumped (snd (addCKFTracks ext b w))
     = (dumped w + dump_count (seq w) None)%nat
  /\ dumped (snd (addVertexFitting c w))
     = (dumped w + dump_count (seq w) (Vertexing.logLevel c))%nat.
Proof.
  split; [apply addSeeding_dump|].
  split; [apply addCKFTracks_dump | apply addVertexFitting_dump].
Qed.

Ltac stage_levels :=
  repeat first
    [ apply Forall_nil
    | apply Forall_cons;
          [ cbv [comp level truthSeedSelector particleSmearing spacePointMaker
                 truthTrackFinder seedingAlgorithm seedingOrthogonalAlgorithm
                 trackParamsEstimationAlgorithm trackFinderPerformanceWriter
                 seedingPerformanceWriter rootTrackParameterWriter
                 truthVertexFinder vertexFitterAlgorithm
                 iterativeVertexFinderAlgorithm adaptiveMultiVertexFinderAlgorithm
                 rootVertexPerformanceWriter customLogLevel];
            first [ reflexivity | apply level_max_ge ]
          | ] ].

Lemma addSeeding_levels ext a w :
  Forall
    (fun st =>
       match Seeding.logLevel a with
       | None => level (comp st) = logLevel (config (seq w))
       | Some l => (level_value l <= level_value (level (comp st)))%Z
       end)
    (added w (snd (addSeeding ext a w))).
Proof.
  destruct a as [tg fld geo alg tsr pss ivi sfc tpe ip odr ll rnd].
  seeding_fields.
  remember (addSeeding ext _ w) as r eqn:Hr.
  unfold addSeeding in Hr. seeding_fields.
  destruct ll as [l|], alg as [[]|repr], tsr as [tsr|], odr as [d|]; py_exec Hr;
    subst r; py_goal; added_stages; stage_levels.
Qed.

Lemma addVertexFitting_levels a w :
  Forall
    (fun st =>
       match Vertexing.logLevel a with
       | None => level (comp st) = logLevel (config (seq w))
       | Some l => (level_value l <= level_value (level (comp st)))%Z
       end)
    (added w (snd (addVertexFitting a w))).
Proof.
  destruct a as [fld odr ap tp vf ll]. vertexing_fields.
  remember (addVertexFitting _ w) as r eqn:Hr.
  unfold addVertexFitting in Hr. vertexing_fields.
  destruct ll as [l|], vf as [[]|repr], odr as [d|]; py_exec Hr;
    subst r; py_goal; added_stages; stage_levels.
Qed.

(** X3: every stage that addSeeding or addVertexFitting adds, in any run,
    has the sequencer's log level when no [logLevel] is passed, whatever
    level the stage asks for in the code, and a level not below the passed
    [logLevel] otherwise. *)
Theorem stage_levels_follow_logLevel (ext : Externals) (a : Seeding.Args)
    (c : Vertexing.Args) (w : World) :
  Forall
    (fun st =>
       match Seeding.logLevel a with
       | None => level (comp st) = logLevel (config (seq w))
       | Some l => (level_value l <= level_value (level (comp st)))%Z
       end)
    (added w (snd (addSeeding ext a w)))
  /\ Forall
       (fun st =>
          match Vertexing.logLevel c with
          | None => level (comp st) = logLevel (config (seq w))
          | Some l => (level_value l <= level_value (level (comp st)))%Z
          end)
       (added w (snd (addVertexFitting c w))).
Proof.
  split; [apply addSeeding_levels | apply addVertexFitting_levels].
Qed.

(** ** Which calls return *)

Ltac fs_goal :=
  repeat match goal with
    | H : mem_path ?p ?l = _ |- context [mem_path ?p ?l] => rewrite H
    | H : removelast ?p = _ |- context [removelast ?p] => rewrite H
    | H : logRaises ?e ?l = _ |- context [logRaises ?e ?l] => rewrite H
    | H : String.eqb ?a ?b = _ |- context [String.eqb ?a ?b] => rewrite H
    | H : readJsonGeometryList ?e ?p = _
      |- context [readJsonGeometryList ?e ?p] => rewrite H
    end;
  cbn [orb andb negb is_ok is_some path_exists is_dir dir_ready].

(** X4: addSeeding returns exactly when the algorithm is a member of
    SeedingAlgorithm, the info message does not trip the logger and, unless
    the algorithm is TruthSmeared: the geometry selection is read,
    [truthSeedRanges] is given if the algorithm is TruthEstimated or an
    output directory is given, and the output directory exists or can be
    created. *)
Theorem addSeeding_returns_iff (ext : Externals) (a : Seeding.Args) (w : World) :
  fst (addSeeding ext a w) = inr tt <-> seeding_returns ext a w = true.
Proof.
  destruct a as [tg fld geo alg tsr pss ivi sfc tpe ip odr ll rnd].
  unfold seeding_returns, dir_ready. seeding_fields.
  remember (addSeeding ext _ w) as r eqn:Hr.
  unfold addSeeding in Hr. seeding_fields.
  destruct alg as [[]|repr], tsr as [tsr|], odr as [d|]; py_exec Hr;
    subst r; py_goal; fs_goal;
    (split; intros H; first [ reflexivity | discriminate H | idtac ]).
Qed.

Lemma addSeeding_returns_iff_witness :
  fst (addSeeding quiet_externals (seeding_args (Member Orthogonal) (Some ["out"]))
         empty_world) = inr tt.
Proof.
  apply (proj2 (addSeeding_returns_iff quiet_externals
                  (seeding_args (Member Orthogonal) (Some ["out"])) empty_world)).
  reflexivity.
Defined.

(** X5: addCKFTracks returns exactly when the ROOT directory, if given,
    exists or can be created and the CSV directory, if given, exists or can
    be created once the ROOT directory is there, and the info message about
    the CSV files does not trip the logger. *)
Theorem addCKFTracks_returns_iff (ext : Externals) (b : CKF.Args) (w : World) :
  fst (addCKFTracks ext b w) = inr tt <-> ckf_returns ext b w = true.
Proof.
  destruct b as [tg fld cfg csv root sel]. unfold ckf_returns, dir_ready.
  ckf_fields.
  remember (addCKFTracks ext _ w) as r eqn:Hr.
  unfold addCKFTracks in Hr. ckf_fields.
  destruct root as [d|], csv as [c|]; py_exec Hr; subst r; py_goal; fs_goal;
    cbn [snd fst dirs files]; fs_goal;
    rewrite ?andb_false_r, ?orb_true_r, ?andb_true_r;
    (split; intros H; first [ reflexivity | discriminate H | idtac ]).
Qed.

Lemma addCKFTracks_returns_iff_witness :
  fst (addCKFTracks quiet_externals (ckf_args (Some ["csv"]) (Some ["root"]))
         empty_world) = inr tt.
Proof.
  apply (proj2 (addCKFTracks_returns_iff quiet_externals
                  (ckf_args (Some ["csv"]) (Some ["root"])) empty_world)).
  reflexivity.
Defined.

(** X6: addVertexFitting returns exactly when the finder is a member of
    VertexFinder and the output directory, if given, exists or can be
    created. *)
Theorem addVertexFitting_returns_iff (a : Vertexing.Args) (w : World) :
  fst (addVertexFitting a w) = inr tt <-> vertexing_returns a w = true.
Proof.
  destruct a as [fld odr ap tp vf ll]. unfold vertexing_returns, dir_ready.
  vertexing_fields.
  remember (addVertexFitting _ w) as r eqn:Hr.
  unfold addVertexFitting in Hr. vertexing_fields.
  destruct vf as [[]|repr], odr as [d|]; py_exec Hr;
    subst r; py_goal; fs_goal;
    (split; intros H; first [ reflexivity | discriminate H ]).
Qed.

Lemma addVertexFitting_returns_iff_witness :
  fst (addVertexFitting (vertexing_args (Member AMVF) (Some ["out"]) "particles_input")
         empty_world) = inr tt.
Proof.
  apply (proj2 (addVertexFitting_returns_iff
                  (vertexing_args (Member AMVF) (Some ["out"]) "particles_input")
                  empty_world)).
  reflexivity.
Defined.

(** ** addSeeding: the branches *)

(** X7: with TruthSmeared and a quiet logger addSeeding returns, having
    added the truth seed selector if [truthSeedRanges] is given and then
    one ParticleSmearing stage; the smearing reads the selected particles
    if the selector was added and the input particles otherwise, and its
    random numbers are those passed as [rnd] or, by default,
    [RandomNumbers(seed=42)]. *)
Theorem truth_smeared_wiring (ext : Externals) (a : Seeding.Args) (w : World) :
  Seeding.seedingAlgorithm a = Member TruthSmeared ->
  logRaises ext INFO = false ->
  fst (addSeeding ext a w) = inr tt
  /\ exists smear,
       added w (snd (addSeeding ext a w))
       = match Seeding.truthSeedRanges a with
         | Some r =>
             [mkStage Algorithm
                (truthSeedSelector ext
                   (customLogLevel (seq w) (Seeding.logLevel a) INFO) r
                   (Seeding.inputParticles a))]
         | None => []
         end ++ [mkStage Algorithm smear]
       /\ cls smear = "ParticleSmearing"
       /\ inputs smear
          = [("inputParticles",
              match Seeding.truthSeedRanges a with
              | Some _ => "truth_seeds_selected"
              | None => Seeding.inputParticles a
              end)]
       /\ assoc "randomNumbers" (params smear)
          = Some match Seeding.rnd a with
                 | Some r => r
                 | None => VCall "RandomNumbers" [] [("seed", VNum 42)]
                 end.
Proof.
  intros Hv Hq. destruct a as [tg fld geo alg tsr pss ivi sfc tpe ip odr ll rnd].
  seeding_fields. subst alg.
  remember (addSeeding ext _ w) as r eqn:Hr.
  unfold addSeeding in Hr. seeding_fields.
  destruct tsr as [tsr|]; py_cbn Hr; rewrite ?Hq in Hr; py_exec Hr;
    subst r; py_goal; (split; [reflexivity|]); added_stages;
    eexists; repeat split; reflexivity.
Qed.

Lemma truth_smeared_wiring_witness :
  fst (addSeeding quiet_externals (seeding_args_no_ranges (Member TruthSmeared) None)
         empty_world) = inr tt.
Proof.
  apply (truth_smeared_wiring quiet_externals
           (seeding_args_no_ranges (Member TruthSmeared) None) empty_world).
  - reflexivity.
  - reflexivity.
Defined.

(** X8: when the geometry selection cannot be read and the algorithm is
    not TruthSmeared, addSeeding ends with the reader's error; by then it
    has added the truth seed selector if [truthSeedRanges] is given and
    nothing else, has logged nothing and created no directory. *)
Theorem geometry_failure_propagates (ext : Externals) (a : Seeding.Args)
    (w : World) (e : Exc) :
  Seeding.seedingAlgorithm a <> Member TruthSmeared ->
  readJsonGeometryList ext (py_str (Seeding.geoSelectionConfigFile a)) = inl e ->
  fst (addSeeding ext a w) = inl e
  /\ stage_names (added w (snd (addSeeding ext a w)))
     = match Seeding.truthSeedRanges a with
       | Some _ => ["TruthSeedSelector"]
       | None => []
       end
  /\ logged (snd (addSeeding ext a w)) = logged w
  /\ dirs (snd (addSeeding ext a w)) = dirs w.
Proof.
  intros Hv He. destruct a as [tg fld geo alg tsr pss ivi sfc tpe ip odr ll rnd].
  seeding_fields.
  remember (addSeeding ext _ w) as r eqn:Hr.
  unfold addSeeding in Hr. seeding_fields. rewrite He in Hr.
  destruct alg as [[]|repr], tsr as [tsr|]; try congruence; py_exec Hr;
    subst r; py_goal; repeat split; try reflexivity; added_stages; reflexivity.
Qed.

Lemma geometry_failure_propagates_witness :
  stage_names
    (added empty_world
       (snd (addSeeding missing_geometry_externals
               (seeding_args (Member Default) (Some ["out"])) empty_world)))
  = ["TruthSeedSelector"].
Proof.
  refine (proj1 (proj2 (geometry_failure_propagates missing_geometry_externals
                          (seeding_args (Member Default) (Some ["out"]))
                          empty_world (FileNotFoundError ["geoSel.json"]) _ _))).
  - discriminate.
  - reflexivity.
Defined.

(** X9: without [truthSeedRanges] (None) and with a quiet logger and a
    readable geometry selection, TruthEstimated ends in UnboundLocalError
    for [selAlg] with only the SpacePointMaker added, and Default and
    Orthogonal with an output directory end in the same error after the
    directory is there and the three algorithms are added. *)
Theorem no_truth_seed_ranges_unbound_selAlg (ext : Externals) (a : Seeding.Args)
    (w : World) (g : Value) :
  Seeding.truthSeedRanges a = None ->
  logRaises ext INFO = false ->
  readJsonGeometryList ext (py_str (Seeding.geoSelectionConfigFile a)) = inr g ->
  (Seeding.seedingAlgorithm a = Member TruthEstimated ->
     fst (addSeeding ext a w) = inl (UnboundLocalError "selAlg")
     /\ stage_names (added w (snd (addSeeding ext a w))) = ["SpacePointMaker"]
     /\ dirs (snd (addSeeding ext a w)) = dirs w)
  /\ (forall v d,
        Seeding.seedingAlgorithm a = Member v ->
        v = Default \/ v = Orthogonal ->
        Seeding.outputDirRoot a = Some d ->
        dir_ready w d = true ->
        fst (addSeeding ext a w) = inl (UnboundLocalError "selAlg")
        /\ stage_names (added w (snd (addSeeding ext a w)))
           = ["SpacePointMaker"; seeding_branch_stage v;
              "TrackParamsEstimationAlgorithm"]
        /\ path_exists (snd (addSeeding ext a w)) d = true).
Proof.
  intros Ht Hq Hg. destruct a as [tg fld geo alg tsr pss ivi sfc tpe ip odr ll rnd].
  seeding_fields. subst tsr. split.
  - intros Hv. subst alg.
    remember (addSeeding ext _ w) as r eqn:Hr.
    unfold addSeeding in Hr. seeding_fields. rewrite Hg in Hr.
    destruct odr as [d|]; py_cbn Hr; rewrite ?Hq in Hr; py_exec Hr;
      subst r; py_goal; repeat split; try reflexivity; added_stages; reflexivity.
  - intros v d Hv Hvd Ho Hd. subst alg odr. revert Hd. unfold dir_ready.
    remember (addSeeding ext _ w) as r eqn:Hr.
    unfold addSeeding in Hr. seeding_fields. rewrite Hg in Hr.
    destruct Hvd; subst v; py_cbn Hr; rewrite ?Hq in Hr; py_exec Hr;
      subst r; py_goal; fs_goal; intros Hd; try discriminate Hd;
      repeat split; try reflexivity; try (added_stages; reflexivity);
      rewrite ?mem_path_app, ?mem_path_head; fs_goal; rewrite ?orb_true_r;
      reflexivity.
Qed.

Lemma no_truth_seed_ranges_unbound_selAlg_witness :
  fst (addSeeding quiet_externals
         (seeding_args_no_ranges (Member Default) (Some ["out"])) empty_world)
  = inl (UnboundLocalError "selAlg").
Proof.
  refine (proj1 (proj2 (no_truth_seed_ranges_unbound_selAlg quiet_externals
                          (seeding_args_no_ranges (Member Default) (Some ["out"]))
                          empty_world
                          (VCall "readJsonGeometryList" [VPath ["geoSel.json"]] [])
                          _ _ _)
                   Default ["out"] _ _ _ _)).
  - reflexivity.
  - reflexivity.
  - reflexivity.
  - reflexivity.
  - left. reflexivity.
  - reflexivity.
  - reflexivity.
Defined.

(** ** An output directory that cannot be created *)







(** X13: addCKFTracks creates the ROOT directory before the CSV one: with
    the CSV directory directly inside a ROOT directory that is a directory
    or can be created, and a quiet logger, the call returns and both
    directories are there afterwards. *)
Theorem addCKFTracks_csv_under_root (ext : Externals) (b : CKF.Args) (w : World)
    (d : Path) (c : string) :
  CKF.outputDirRoot b = Some d ->
  CKF.outputDirCsv b = Some (d ++ [c]) ->
  dir_ready w d = true ->
  mem_path d (files w) = false ->
  logRaises ext INFO = false ->
  fst (addCKFTracks ext b w) = inr tt
  /\ is_dir (snd (addCKFTracks ext b w)) d = true
  /\ path_exists (snd (addCKFTracks ext b w)) (d ++ [c]) = true.
Proof.
  destruct b as [tg fld cfg csv root sel]. ckf_fields.
  intros -> -> Hd Hf Hq.
  assert (Hrl : removelast (d ++ [c]) = d) by apply removelast_last.
  assert (Hne : d ++ [c] <> []) by (destruct d; discriminate).
  revert Hd Hrl Hne. generalize (d ++ [c]) as cd. intros cd.
  unfold dir_ready.
  remember (addCKFTracks ext _ w) as r eqn:Hr.
  unfold addCKFTracks in Hr. ckf_fields.
  py_cbn Hr. rewrite ?Hq in Hr.
  py_exec Hr; subst r; py_goal; fs_goal; intros Hd Hrl Hne;
    try discriminate Hd; try congruence; subst;
    try (injection Hrl; intros; subst);
    repeat match goal with
      | H : mem_path _ (_ ++ _) = _ |- _ => rewrite mem_path_app in H
      | H : context [mem_path ?p (?p :: _)] |- _ => rewrite mem_path_head in H
      | H : context [_ || true] |- _ => rewrite orb_true_r in H
      | H : true = false |- _ => discriminate H
      end;
    rewrite ?mem_path_app, ?mem_path_head; fs_goal; rewrite ?orb_true_r;
    repeat split; reflexivity.
Qed.

Lemma addCKFTracks_csv_under_root_witness :
  fst (addCKFTracks quiet_externals
         (ckf_args (Some ["out"; "csv"]) (Some ["out"])) empty_world) = inr tt.
Proof.
  refine (proj1 (addCKFTracks_csv_under_root quiet_externals
                   (ckf_args (Some ["out"; "csv"]) (Some ["out"])) empty_world
                   ["out"] "csv" _ _ _ _ _)).
  - reflexivity.
  - reflexivity.
  - reflexivity.
  - reflexivity.
  - reflexivity.
Defined.

(** ** addVertexFitting: the writer *)

(** X14: a returning addVertexFitting call issues the warning about smeared
    particles exactly when an output directory is given and
    [associatedParticles] is ["particles_selected"]; it logs nothing
    else. *)
Theorem addVertexFitting_warning (a : Vertexing.Args) (w : World) :
  fst (addVertexFitting a w) = inr tt ->
  logged (snd (addVertexFitting a w))
  = logged w
    ++ match Vertexing.outputDirRoot a with
       | Some _ =>
           if String.eqb (Vertexing.associatedParticles a) "particles_selected"
           then [smeared_particles_warning] else []
       | None => []
       end.
Proof.
  destruct a as [fld odr ap tp vf ll]. vertexing_fields.
  remember (addVertexFitting _ w) as r eqn:Hr.
  unfold addVertexFitting in Hr. vertexing_fields.
  destruct vf as [[]|repr], odr as [d|]; py_exec Hr;
    subst r; py_goal; fs_goal; intros H; try discriminate H;
    first [ reflexivity | symmetry; apply app_nil_r ].
Qed.

Lemma addVertexFitting_warning_witness :
  logged
    (snd (addVertexFitting
            (vertexing_args (Member Truth) (Some ["out"]) "particles_selected")
            empty_world))
  = [smeared_particles_warning].
Proof.
  apply (addVertexFitting_warning
           (vertexing_args (Member Truth) (Some ["out"]) "particles_selected")
           empty_world).
  reflexivity.
Defined.

(** X15: a returning addVertexFitting call with an output directory has
    added the finder stages and then one writer.  The writer reads
    ["fittedVertices"], which exactly one of the finder stages produces,
    the track parameters and associated particles that were passed, and as
    time input ["outputTime"] for AMVF, produced by the AMVF finder, and
    no key otherwise; it writes performance_vertexing.root in the output
    directory. *)
Theorem addVertexFitting_writer_inputs (a : Vertexing.Args) (v : VertexFinder)
    (d : Path) (w : World) :
  Vertexing.vertexFinder a = Member v ->
  Vertexing.outputDirRoot a = Some d ->
  fst (addVertexFitting a w) = inr tt ->
  exists finders wr,
    added w (snd (addVertexFitting a w)) = finders ++ [mkStage Writer wr]
    /\ forallb is_algorithm finders = true
    /\ inputs wr
       = [("inputAllTruthParticles", "particles_input");
          ("inputSelectedTruthParticles", "particles_selected");
          ("inputAssociatedTruthParticles", Vertexing.associatedParticles a);
          ("inputFittedTracks", Vertexing.trackParameters a);
          ("inputVertices", "fittedVertices");
          ("inputTime", match v with AMVF => "outputTime" | _ => "" end)]
    /\ producers "fittedVertices" finders = 1%nat
    /\ producers "outputTime" finders
       = match v with AMVF => 1%nat | _ => 0%nat end
    /\ assoc "filePath" (params wr)
       = Some (VPath (d ++ ["performance_vertexing.root"])).
Proof.
  intros Hv Ho. destruct a as [fld odr ap tp vf ll]. vertexing_fields. subst.
  remember (addVertexFitting _ w) as r eqn:Hr.
  unfold addVertexFitting in Hr. vertexing_fields.
  destruct v; py_exec Hr;
    subst r; py_goal; intros H; try discriminate H; added_stages;
    match goal with
    | |- exists f wr, ?l = _ /\ _ =>
        exists (removelast l); eexists; split; [reflexivity|]
    end; repeat split; reflexivity.
Qed.

Lemma addVertexFitting_writer_inputs_witness :
  exists finders wr,
    added empty_world
      (snd (addVertexFitting
              (vertexing_args (Member AMVF) (Some ["out"]) "particles_input")
              empty_world))
    = finders ++ [mkStage Writer wr]
    /\ producers "outputTime" finders = 1%nat.
Proof.
  destruct (addVertexFitting_writer_inputs
              (vertexing_args (Member AMVF) (Some ["out"]) "particles_input")
              AMVF ["out"] empty_world eq_refl eq_refl eq_refl)
    as (finders & wr & Hadd & _ & _ & _ & Htime & _).
  exists finders, wr. split; [exact Hadd | exact Htime].
Defined.

(** ** Products of the added stages *)

Ltac nodup_keys :=
  vm_compute;
  repeat first
    [ apply NoDup_nil
    | apply NoDup_cons;
      [ cbn [In]; intros Hin;
        repeat (destruct Hin as [Hin|Hin]; [discriminate Hin|]); exact Hin
      | ] ].

Lemma addSeeding_products_distinct ext a w :
  NoDup (flat_map producedOutputs (added w (snd (addSeeding ext a w)))).
Proof.
  destruct a as [tg fld geo alg tsr pss ivi sfc tpe ip odr ll rnd].
  remember (addSeeding ext _ w) as r eqn:Hr.
  unfold addSeeding in Hr. seeding_fields.
  destruct alg as [[]|repr], tsr as [tsr|], odr as [d|]; py_exec Hr;
    subst r; py_goal; added_stages; nodup_keys.
Qed.

Lemma addCKFTracks_products ext b w :
  flat_map producedOutputs (added w (snd (addCKFTracks ext b w)))
  = ["trajectories"; "fittedTrackParameters"].
Proof.
  destruct b as [tg fld cfg csv root sel].
  remember (addCKFTracks ext _ w) as r eqn:Hr.
  unfold addCKFTracks in Hr. ckf_fields.
  destruct root as [d|], csv as [c|]; py_exec Hr;
    subst r; py_goal; added_stages; reflexivity.
Qed.

Lemma addVertexFitting_products_distinct a w :
  NoDup (flat_map producedOutputs (added w (snd (addVertexFitting a w)))).
Proof.
  destruct a as [fld odr ap tp vf ll].
  remember (addVertexFitting _ w) as r eqn:Hr.
  unfold addVertexFitting in Hr. vertexing_fields.
  destruct vf as [[]|repr], odr as [d|]; py_exec Hr;
    subst r; py_goal; added_stages; nodup_keys.
Qed.

(** X16: in any run, returning or not, no two stages added by one call of
    addSeeding, of addCKFTracks or of addVertexFitting produce the same
    key, and no stage produces a key twice. *)
Theorem helpers_distinct_products (ext : Externals) (a : Seeding.Args)
    (b : CKF.Args) (c : Vertexing.Args) (w : World) :
  NoDup (flat_map producedOutputs (added w (snd (addSeeding ext a w))))
  /\ NoDup (flat_map producedOutputs (added w (snd (addCKFTracks ext b w))))
  /\ NoDup (flat_map producedOutputs (added w (snd (addVertexFitting c w)))).
Proof.
  split; [apply addSeeding_products_distinct|].
  split; [|apply addVertexFitting_products_distinct].
  rewrite addCKFTracks_products. nodup_keys.
Qed.

(** ** Calls in sequence *)

Lemma bind_returns {A B} (m : M A) (k : A -> M B) (w : World) (b : B) :
  fst (bind m k w) = inr b ->
  exists a, fst (m w) = inr a
            /\ fst (k a (snd (m w))) = inr b
            /\ snd (bind m k w) = snd (k a (snd (m w))).
Proof.
  unfold bind. destruct (m w) as [[e|a] w']; simpl; intros H.
  - discriminate H.
  - exists a. auto.
Qed.

Lemma addKalmanTracks_extends tg f dn thr w :
  stages (seq (snd (addKalmanTracks tg f dn thr w)))
  = stages (seq w) ++ added w (snd (addKalmanTracks tg f dn thr w)).
Proof.
  unfold addKalmanTracks. destruct dn; py_goal; added_stages;
    rewrite <- ?app_assoc; reflexivity.
Qed.

Lemma addCKFTracks_extends ext b w :
  stages (seq (snd (addCKFTracks ext b w)))
  = stages (seq w) ++ added w (snd (addCKFTracks ext b w)).
Proof.
  destruct b as [tg fld cfg csv root sel].
  remember (addCKFTracks ext _ w) as r eqn:Hr.
  unfold addCKFTracks in Hr. ckf_fields.
  destruct root as [d|], csv as [c|]; py_exec Hr;
    subst r; py_goal; added_stages;
    first [ rewrite <- ?app_assoc; reflexivity | symmetry; apply app_nil_r ].
Qed.

Lemma addKalmanTracks_ordered_after tg f thr w :
  (forall k, In k kalman_upstream -> available (stages (seq w)) k) ->
  ordered_after (stages (seq w))
    (added w (snd (addKalmanTracks tg f false thr w))).
Proof.
  intros Hup. unfold kalman_upstream in Hup.
  unfold addKalmanTracks. py_goal. added_stages. cbn [ordered_after].
  repeat split; supplied_stage Hup.
Qed.

Lemma addCKFTracks_ordered_after ext b w :
  fst (addCKFTracks ext b w) = inr tt ->
  (forall k, In k (ckf_upstream b) -> available (stages (seq w)) k) ->
  ordered_after (stages (seq w)) (added w (snd (addCKFTracks ext b w))).
Proof.
  destruct b as [tg fld cfg csv root sel]. unfold ckf_upstream. ckf_fields.
  remember (addCKFTracks ext _ w) as r eqn:Hr.
  unfold addCKFTracks in Hr. ckf_fields.
  destruct root as [d|], csv as [c|]; py_exec Hr;
    subst r; py_goal; intros Hok; try discriminate Hok; intros Hup;
    added_stages; cbn [ordered_after];
    repeat split; supplied_stage Hup.
Qed.

Lemma addSeeding_provides ext a v w :
  Seeding.seedingAlgorithm a = Member v ->
  fst (addSeeding ext a w) = inr tt ->
  producers "estimatedparameters" (added w (snd (addSeeding ext a w))) = 1%nat
  /\ producers "truth_seeds_selected" (added w (snd (addSeeding ext a w)))
     = match Seeding.truthSeedRanges a with Some _ => 1%nat | None => 0%nat end
  /\ producers "prototracks" (added w (snd (addSeeding ext a w)))
     = match v with TruthSmeared => 0%nat | _ => 1%nat end
  /\ producers "trajectories" (added w (snd (addSeeding ext a w))) = 0%nat
  /\ producers "fittedTrackParameters" (added w (snd (addSeeding ext a w))) = 0%nat.
Proof.
  intros Hv. destruct a as [tg fld geo alg tsr pss ivi sfc tpe ip odr ll rnd].
  seeding_fields. subst alg.
  remember (addSeeding ext _ w) as r eqn:Hr.
  unfold addSeeding in Hr. seeding_fields.
  destruct v, tsr as [tsr|], odr as [d|]; py_exec Hr;
    subst r; py_goal; intros Hok; try discriminate Hok;
    added_stages; repeat split; reflexivity.
Qed.

Lemma producers_available key l :
  (0 < producers key l)%nat -> key <> "" -> available l key.
Proof.
  unfold producers. intros Hpos Hne.
  destruct (filter (produces key) l) as [|p r] eqn:Hf; [simpl in Hpos; lia|].
  assert (Hin : In p (filter (produces key) l)) by (rewrite Hf; left; reflexivity).
  apply filter_In in Hin. destruct Hin as [Hin Hp].
  exists p. split; auto.
  unfold produces in Hp. apply existsb_exists in Hp.
  destruct Hp as [x [Hx He]]. apply String.eqb_eq in He. subst. exact Hx.
Qed.

Lemma available_producers key l :
  available l key -> (0 < producers key l)%nat.
Proof.
  intros [p [Hin Hk]]. unfold producers.
  assert (H : In p (filter (produces key) l)).
  { apply filter_In. split; auto. unfold produces. apply existsb_exists.
    exists key. split; auto. apply String.eqb_refl. }
  destruct (filter (produces key) l); [contradiction|simpl; lia].
Qed.

Lemma producers_app key l r :
  producers key (l ++ r) = (producers key l + producers key r)%nat.
Proof. unfold producers. rewrite filter_app, length_app. reflexivity. Qed.

Lemma added_trans w w1 w2 :
  stages (seq w1) = stages (seq w) ++ added w w1 ->
  stages (seq w2) = stages (seq w1) ++ added w1 w2 ->
  added w w2 = added w w1 ++ added w1 w2.
Proof.
  intros H1 H2. apply added_app. rewrite H2, H1, app_assoc. reflexivity.
Qed.

(** The stage standing for simulation and digitization supplies its keys. *)
Ltac upstream_supplies :=
  let k := fresh "k" in
  let Hk := fresh "Hk" in
  intros k Hk;
  match goal with
  | |- available (stages (seq (world_after ?keys))) _ =>
      exists (upstream_stage keys)
  end;
  split; [left; reflexivity|];
  vm_compute in Hk |- *; exact Hk.

Lemma world_after_ordered (keys : list string) :
  dependency_ordered (stages (seq (world_after keys))).
Proof. apply dependency_ordered_single. reflexivity. Qed.

(** X17: addSeeding with [truthSeedRanges], followed by addKalmanTracks
    without direct navigation, both returning, keeps a dependency-ordered
    stage list dependency ordered, given the keys of simulation and
    digitization: the fitter's selected particles and initial parameters
    come from addSeeding.  One stage produces ["trajectories"]; but unless
    the seeding is TruthSmeared two of the added stages produce
    ["prototracks"], addSeeding's and the TruthTrackFinder of
    addKalmanTracks. *)
Theorem seeding_then_kalman_ordered (ext : Externals) (a : Seeding.Args)
    (v : SeedingAlgorithm) (trackingGeometry field : Value) (threshold : Q)
    (w : World) :
  Seeding.seedingAlgorithm a = Member v ->
  Seeding.truthSeedRanges a <> None ->
  fst (seeding_then_kalman ext a trackingGeometry field threshold w) = inr tt ->
  (forall k, In k (seeding_upstream a) -> available (stages (seq w)) k) ->
  dependency_ordered (stages (seq w)) ->
  dependency_ordered
    (stages (seq (snd (seeding_then_kalman ext a trackingGeometry field threshold w))))
  /\ producers "prototracks"
       (added w (snd (seeding_then_kalman ext a trackingGeometry field threshold w)))
     = match v with TruthSmeared => 1%nat | _ => 2%nat end
  /\ producers "trajectories"
       (added w (snd (seeding_then_kalman ext a trackingGeometry field threshold w)))
     = 1%nat.
Proof.
  intros Hv Ht Hok Hup Hord. unfold seeding_then_kalman in *.
  destruct (bind_returns _ _ _ _ Hok) as ([] & H1 & H2 & H3).
  rewrite H3. set (w1 := snd (addSeeding ext a w)) in *.
  pose proof (addSeeding_extends ext a w) as E1. fold w1 in E1.
  pose proof (addKalmanTracks_extends trackingGeometry field false threshold w1)
    as E2.
  destruct (addSeeding_provides ext a v w Hv H1) as (Pe & Ps & Pp & Pt & Pf).
  fold w1 in Pe, Ps, Pp, Pt, Pf.
  assert (Hord1 : dependency_ordered (stages (seq w1))).
  { rewrite E1. apply dependency_ordered_app; auto.
    now apply (addSeeding_ordered_after ext a v w). }
  split; [|split].
  - rewrite E2. apply dependency_ordered_app; auto.
    apply addKalmanTracks_ordered_after.
    intros k Hk. unfold kalman_upstream in Hk. cbn [In] in Hk. rewrite E1.
    destruct Hk as [<-|[<-|[<-|[<-|[<-|[]]]]]].
    + apply available_app_r, available_iff, producers_available; [|discriminate].
      rewrite Ps. destruct (Seeding.truthSeedRanges a); [lia|congruence].
    + apply available_app_l, Hup. unfold seeding_upstream; cbn [In]; auto.
    + apply available_app_l, Hup. unfold seeding_upstream; cbn [In]; auto 6.
    + apply available_app_l, Hup. unfold seeding_upstream; cbn [In]; auto.
    + apply available_app_r, available_iff, producers_available; [|discriminate].
      rewrite Pe. lia.
  - rewrite (added_trans w w1 _ E1 E2), producers_app, Pp.
    unfold addKalmanTracks. py_goal. added_stages.
    destruct v; reflexivity.
  - rewrite (added_trans w w1 _ E1 E2), producers_app, Pt.
    unfold addKalmanTracks. py_goal. added_stages. reflexivity.
Qed.

Lemma seeding_then_kalman_ordered_witness :
  producers "prototracks"
    (added (world_after (seeding_upstream (seeding_args (Member Default) None)))
       (snd (seeding_then_kalman quiet_externals
               (seeding_args (Member Default) None)
               (VRef "trackingGeometry") (VRef "field") 0
               (world_after
                  (seeding_upstream (seeding_args (Member Default) None))))))
  = 2%nat.
Proof.
  refine (proj1 (proj2 (seeding_then_kalman_ordered quiet_externals
                          (seeding_args (Member Default) None) Default
                          (VRef "trackingGeometry") (VRef "field") 0
                          (world_after
                             (seeding_upstream (seeding_args (Member Default) None)))
                          _ _ _ _ _))).
  - reflexivity.
  - discriminate.
  - vm_compute. reflexivity.
  - upstream_supplies.
  - apply world_after_ordered.
Defined.

(** X18: addSeeding with [truthSeedRanges], followed by addCKFTracks with
    the default [selectedParticles], both returning, keeps a
    dependency-ordered stage list dependency ordered, given the keys of
    simulation and digitization and ["particles_selected"]: the track
    finder's initial parameters and the performance writer's selected
    particles come from addSeeding.  No key is produced by two of the
    stages the two calls add. *)
Theorem seeding_then_ckf_ordered (ext : Externals) (a : Seeding.Args)
    (v : SeedingAlgorithm) (b : CKF.Args) (w : World) :
  Seeding.seedingAlgorithm a = Member v ->
  Seeding.truthSeedRanges a <> None ->
  CKF.selectedParticles b = "truth_seeds_selected" ->
  fst (seeding_then_ckf ext a b w) = inr tt ->
  (forall k, In k ("particles_selected" :: seeding_upstream a) ->
             available (stages (seq w)) k) ->
  dependency_ordered (stages (seq w)) ->
  dependency_ordered (stages (seq (snd (seeding_then_ckf ext a b w))))
  /\ NoDup (flat_map producedOutputs (added w (snd (seeding_then_ckf ext a b w)))).
Proof.
  intros Hv Ht Hsel Hok Hup Hord. unfold seeding_then_ckf in *.
  destruct (bind_returns _ _ _ _ Hok) as ([] & H1 & H2 & H3).
  rewrite H3. set (w1 := snd (addSeeding ext a w)) in *.
  pose proof (addSeeding_extends ext a w) as E1. fold w1 in E1.
  pose proof (addCKFTracks_extends ext b w1) as E2.
  destruct (addSeeding_provides ext a v w Hv H1) as (Pe & Ps & Pp & Pt & Pf).
  fold w1 in Pe, Ps, Pp, Pt, Pf.
  assert (Hord1 : dependency_ordered (stages (seq w1))).
  { rewrite E1. apply dependency_ordered_app; auto.
    apply (addSeeding_ordered_after ext a v w); auto.
    intros k Hk. apply Hup. right. exact Hk. }
  split.
  - rewrite E2. apply dependency_ordered_app; auto.
    apply addCKFTracks_ordered_after; auto.
    intros k Hk. unfold ckf_upstream in Hk. rewrite Hsel in Hk.
    cbn [In] in Hk. rewrite E1.
    destruct Hk as [<-|[<-|[<-|[<-|[<-|[<-|[<-|[<-|[]]]]]]]]];
      try (apply available_app_l, Hup; unfold seeding_upstream; cbn [In];
           auto 8; fail).
    + apply available_app_r, available_iff, producers_available; [|discriminate].
      rewrite Pe. lia.
    + apply available_app_r, available_iff, producers_available; [|discriminate].
      rewrite Ps. destruct (Seeding.truthSeedRanges a); [lia|congruence].
  - rewrite (added_trans w w1 _ E1 E2), flat_map_app, addCKFTracks_products.
    apply NoDup_app.
    + apply addSeeding_products_distinct.
    + repeat constructor; cbn [In]; intuition discriminate.
    + intros k Hin [<-|[<-|[]]];
        apply available_iff, available_producers in Hin; fold w1 in Hin; lia.
Qed.

Lemma seeding_then_ckf_ordered_witness :
  dependency_ordered
    (stages
       (seq (snd (seeding_then_ckf quiet_externals
                    (seeding_args (Member TruthEstimated) (Some ["out"]))
                    (ckf_args None (Some ["out"]))
                    (world_after
                       ("particles_selected"
                          :: seeding_upstream
                               (seeding_args (Member TruthEstimated)
                                  (Some ["out"])))))))).
Proof.
  refine (proj1 (seeding_then_ckf_ordered quiet_externals
                   (seeding_args (Member TruthEstimated) (Some ["out"]))
                   TruthEstimated (ckf_args None (Some ["out"]))
                   (world_after
                      ("particles_selected"
                         :: seeding_upstream
                              (seeding_args (Member TruthEstimated) (Some ["out"]))))
                   _ _ _ _ _ _)).
  - reflexivity.
  - discriminate.
  - reflexivity.
  - vm_compute. reflexivity.
  - upstream_supplies.
  - apply world_after_ordered.
Defined.

(** X19: addKalmanTracks without direct navigation followed by
    addTruthTrackingGsf returns, having added the TruthTrackFinder and two
    TrackFittingAlgorithm stages; given the keys addKalmanTracks reads, a
    dependency-ordered stage list stays dependency ordered, the Gsf fitter
    reading the proto tracks of the TruthTrackFinder; the two fitters write
    different keys, ["trajectories"] and ["gsf_trajectories"]. *)
Theorem kalman_then_gsf_ordered (trackingGeometry field : Value) (threshold : Q)
    (w : World) :
  (forall k, In k kalman_upstream -> available (stages (seq w)) k) ->
  dependency_ordered (stages (seq w)) ->
  fst (kalman_then_gsf trackingGeometry field threshold w) = inr tt
  /\ dependency_ordered
       (stages (seq (snd (kalman_then_gsf trackingGeometry field threshold w))))
  /\ stage_names (added w (snd (kalman_then_gsf trackingGeometry field threshold w)))
     = ["TruthTrackFinder"; "TrackFittingAlgorithm"; "TrackFittingAlgorithm"]
  /\ NoDup (flat_map producedOutputs
              (added w (snd (kalman_then_gsf trackingGeometry field threshold w))))
  /\ producers "trajectories"
       (added w (snd (kalman_then_gsf trackingGeometry field threshold w))) = 1%nat
  /\ producers "gsf_trajectories"
       (added w (snd (kalman_then_gsf trackingGeometry field threshold w))) = 1%nat.
Proof.
  intros Hup Hord. unfold kalman_upstream in Hup.
  unfold kalman_then_gsf, addKalmanTracks, addTruthTrackingGsf. py_goal.
  split; [reflexivity|]. split.
  - repeat rewrite <- app_assoc. cbn [app].
    apply dependency_ordered_app; auto. cbn [ordered_after].
    repeat split; supplied_stage Hup.
  - added_stages. repeat split; try reflexivity. nodup_keys.
Qed.

Lemma kalman_then_gsf_ordered_witness :
  dependency_ordered
    (stages
       (seq (snd (kalman_then_gsf (VRef "trackingGeometry") (VRef "field") 0
                    (world_after kalman_upstream))))).
Proof.
  refine (proj1 (proj2 (kalman_then_gsf_ordered (VRef "trackingGeometry")
                          (VRef "field") 0 (world_after kalman_upstream) _ _))).
  - upstream_supplies.
  - apply world_after_ordered.
Defined.

(** ** addExaTrkx *)

(** X20: addExaTrkx never creates a directory and never logs, also when an
    output directory is given.  If the geometry selection cannot be read
    the call ends with the reader's error and only the TruthSeedSelector
    added; otherwise it returns with the selector, the SpacePointMaker and
    the ExaTrkX track finder added and, exactly when an output directory is
    given, one writer, writing performance_seeding_trees.root there. *)
Theorem addExaTrkx_outcomes (ext : Externals) (MeV : Q) (trackingGeometry : Value)
    (geometrySelection onnxModelDir : Path) (outputDirRoot : option Path)
    (w : World) :
  dirs (snd (addExaTrkx ext MeV trackingGeometry geometrySelection onnxModelDir
               outputDirRoot w)) = dirs w
  /\ logged (snd (addExaTrkx ext MeV trackingGeometry geometrySelection
                    onnxModelDir outputDirRoot w)) = logged w
  /\ match readJsonGeometryList ext geometrySelection with
     | inl e =>
         fst (addExaTrkx ext MeV trackingGeometry geometrySelection onnxModelDir
                outputDirRoot w) = inl e
         /\ stage_names
              (added w (snd (addExaTrkx ext MeV trackingGeometry geometrySelection
                               onnxModelDir outputDirRoot w)))
            = ["TruthSeedSelector"]
     | inr _ =>
         fst (addExaTrkx ext MeV trackingGeometry geometrySelection onnxModelDir
                outputDirRoot w) = inr tt
         /\ stage_names
              (added w (snd (addExaTrkx ext MeV trackingGeometry geometrySelection
                               onnxModelDir outputDirRoot w)))
            = ["TruthSeedSelector"; "SpacePointMaker"; "TrackFindingAlgorithmExaTrkX"]
              ++ match outputDirRoot with
                 | Some _ => ["TrackFinderPerformanceWriter"]
                 | None => []
                 end
         /\ map (fun st => assoc "filePath" (params (comp st)))
              (filter is_writer
                 (added w (snd (addExaTrkx ext MeV trackingGeometry
                                  geometrySelection onnxModelDir outputDirRoot w))))
            = match outputDirRoot with
              | Some d => [Some (VPath (d ++ ["performance_seeding_trees.root"]))]
              | None => []
              end
     end.
Proof.
  remember (addExaTrkx ext MeV trackingGeometry geometrySelection onnxModelDir
              outputDirRoot w) as r eqn:Hr.
  unfold addExaTrkx in Hr.
  destruct outputDirRoot as [d|]; py_exec Hr; subst r; py_goal;
    repeat split; try reflexivity; added_stages; reflexivity.
Qed.

(** X21: a returning addExaTrkx call adds its stages in dependency order,
    given the initial particles, the measurement-particles map, the source
    links and the measurements.  The selected particles that its
    TruthSeedSelector produces are read by none of the stages it adds: the
    writer reads the initial particles. *)
Theorem addExaTrkx_ordered (ext : Externals) (MeV : Q) (trackingGeometry : Value)
    (geometrySelection onnxModelDir : Path) (outputDirRoot : option Path)
    (w : World) :
  fst (addExaTrkx ext MeV trackingGeometry geometrySelection onnxModelDir
         outputDirRoot w) = inr tt ->
  (forall k, In k exatrkx_upstream -> available (stages (seq w)) k) ->
  ordered_after (stages (seq w))
    (added w (snd (addExaTrkx ext MeV trackingGeometry geometrySelection
                     onnxModelDir outputDirRoot w)))
  /\ producers "particles_seed_selected"
       (added w (snd (addExaTrkx ext MeV trackingGeometry geometrySelection
                        onnxModelDir outputDirRoot w))) = 1%nat
  /\ Forall (fun st => ~ In "particles_seed_selected" (requiredInputs st))
       (added w (snd (addExaTrkx ext MeV trackingGeometry geometrySelection
                        onnxModelDir outputDirRoot w))).
Proof.
  unfold exatrkx_upstream.
  remember (addExaTrkx ext MeV trackingGeometry geometrySelection onnxModelDir
              outputDirRoot w) as r eqn:Hr.
  unfold addExaTrkx in Hr.
  destruct outputDirRoot as [d|]; py_exec Hr; subst r; py_goal;
    intros Hok; try discriminate Hok; intros Hup; added_stages;
    (split; [cbn [ordered_after]; repeat split; supplied_stage Hup|]);
    (split; [reflexivity|]);
    repeat first
      [ apply Forall_nil
      | apply Forall_cons;
        [ vm_compute; intros Hin;
          repeat (destruct Hin as [Hin|Hin]; [discriminate Hin|]); exact Hin
        | ] ].
Qed.

Lemma addExaTrkx_ordered_witness :
  ordered_after (stages (seq (world_after exatrkx_upstream)))
    (added (world_after exatrkx_upstream)
       (snd (addExaTrkx quiet_externals (1 # 1000) (VRef "trackingGeometry")
               ["geoSel.json"] ["onnx"] (Some ["out"])
               (world_after exatrkx_upstream)))).
Proof.
  refine (proj1 (addExaTrkx_ordered quiet_externals (1 # 1000)
                   (VRef "trackingGeometry") ["geoSel.json"] ["onnx"]
                   (Some ["out"]) (world_after exatrkx_upstream) _ _)).
  - reflexivity.
  - upstream_supplies.
Defined.

(** ** Life cycle of the sequencers in the run scripts *)

(** X22: in physmon.py and in every test that drives a sequencer, each
    sequencer is constructed once, gets all its stages before it runs, runs
    exactly once, is deleted, if at all, only after its run, and is not
    used after [del]; no sequencer is left without a run. *)
Theorem scripts_lifecycle (events skip : Z) (outdir : Path) (mktemp : nat -> Path)
    (material_recording tmp_path : Path) (name : string)
    (script : Scripts.Script unit) :
  In (name, script)
     (Scripts.run_scripts events skip outdir mktemp material_recording tmp_path) ->
  lifecycle_complete (Scripts.trace_of script) = true.
Proof.
  unfold Scripts.run_scripts, Scripts.sequencer_tests. cbn [In].
  intros H.
  repeat (destruct H as [H|H]; [inversion H; subst; reflexivity|]).
  contradiction.
Qed.

Lemma scripts_lifecycle_witness :
  lifecycle_complete
    (Scripts.trace_of (Scripts.physmon 10%Z 0%Z ["outdir"] (fun n => ["temp"])))
  = true.
Proof.
  apply (scripts_lifecycle 10%Z 0%Z ["outdir"] (fun n => ["temp"]) ["material"]
           ["tmp"] "physmon").
  unfold Scripts.run_scripts. cbn [In]. left. reflexivity.
Defined.
